(** * shuffledns: option parsing and stdin reconciliation

    Source: pkg/runner/options.go.

    A shallow embedding of [ParseOptions].  The function is a straight-line
    sequence of effects on the process (probe of standard input, logger
    set-up, banner, version exit, validation, stdin drain or read), so it is
    written here in a small state-and-exit monad over a [World] that holds
    the standard input stream and the chronological log of effects. *)

From Stdlib Require Import String Ascii List ZArith Bool Lia.
Import ListNotations.
Open Scope string_scope.

(** ** Go's [strings] package, the part the runner uses *)

Module strings.

(** Membership of a byte in an ASCII cutset. *)
Fixpoint contains (cutset : string) (c : ascii) : bool :=
  match cutset with
  | EmptyString => false
  | String d rest => if Ascii.eqb c d then true else contains rest c
  end.

(** [strings.TrimRight(s, cutset)] for an ASCII cutset: the bytes of [s]
    are dropped from the right end for as long as they belong to the
    cutset. *)
Fixpoint TrimRight (s cutset : string) : string :=
  match s with
  | EmptyString => EmptyString
  | String c rest =>
      match TrimRight rest cutset with
      | EmptyString =>
          if contains cutset c then EmptyString else String c EmptyString
      | kept => String c kept
      end
  end.

(** Every byte of [s] belongs to [cutset]. *)
Fixpoint all_in (cutset s : string) : bool :=
  match s with
  | EmptyString => true
  | String c rest => contains cutset c && all_in cutset rest
  end.

(** The last byte of [s], if any. *)
Fixpoint last_byte (s : string) : option ascii :=
  match s with
  | EmptyString => None
  | String c EmptyString => Some c
  | String _ rest => last_byte rest
  end.

End strings.

(** Carriage return and line feed, the cutset of line 117. *)
Definition CR : ascii := Ascii.ascii_of_nat 13.
Definition LF : ascii := Ascii.ascii_of_nat 10.
Definition CRLF : string := String CR (String LF EmptyString).

(** [s != EmptyString] *)
Definition nonempty (s : string) : bool :=
  match s with
  | EmptyString => false
  | String _ _ => true
  end.

(** ** The configuration object (lines 16-38) *)

Record Options : Type := mkOptions {
  Directory : string;
  Domain : string;
  SubdomainsList : string;
  ResolversFile : string;
  Wordlist : string;
  MassdnsPath : string;
  Output : string;
  Json : bool;
  Silent : bool;
  Version : bool;
  Retries : Z;
  Verbose : bool;
  NoColor : bool;
  Threads : Z;
  MassdnsRaw : string;
  WildcardThreads : Z;
  StrictWildcard : bool;
  WildcardOutputFile : string;
  MassDnsCmd : string;
  Stdin : bool
}.

(** Assignment [options.Domain = v]. *)
Definition set_Domain (o : Options) (v : string) : Options :=
  mkOptions (Directory o) v (SubdomainsList o) (ResolversFile o) (Wordlist o)
            (MassdnsPath o) (Output o) (Json o) (Silent o) (Version o)
            (Retries o) (Verbose o) (NoColor o) (Threads o) (MassdnsRaw o)
            (WildcardThreads o) (StrictWildcard o) (WildcardOutputFile o)
            (MassDnsCmd o) (Stdin o).

(** Assignment [options.Stdin = v]. *)
Definition set_Stdin (o : Options) (v : bool) : Options :=
  mkOptions (Directory o) (Domain o) (SubdomainsList o) (ResolversFile o)
            (Wordlist o) (MassdnsPath o) (Output o) (Json o) (Silent o)
            (Version o) (Retries o) (Verbose o) (NoColor o) (Threads o)
            (MassdnsRaw o) (WildcardThreads o) (StrictWildcard o)
            (WildcardOutputFile o) (MassDnsCmd o) v.

(** The record as the flag declarations of lines 47-82 leave it when no flag
    is given: the declared defaults, and the zero value for [Stdin], which no
    flag binds. *)
Definition defaultOptions : Options :=
  {| Directory := EmptyString;
     Domain := EmptyString;
     SubdomainsList := EmptyString;
     ResolversFile := EmptyString;
     Wordlist := EmptyString;
     MassdnsPath := EmptyString;
     Output := EmptyString;
     Json := false;
     Silent := false;
     Version := false;
     Retries := 5;
     Verbose := false;
     NoColor := false;
     Threads := 10000;
     MassdnsRaw := EmptyString;
     WildcardThreads := 25;
     StrictWildcard := false;
     WildcardOutputFile := EmptyString;
     MassDnsCmd := EmptyString;
     Stdin := false |}.

(** Two records agree on every field but [Domain] and [Stdin]. *)
Definition same_but_Domain_Stdin (a b : Options) : Prop :=
  Directory a = Directory b /\ SubdomainsList a = SubdomainsList b /\
  ResolversFile a = ResolversFile b /\ Wordlist a = Wordlist b /\
  MassdnsPath a = MassdnsPath b /\ Output a = Output b /\
  Json a = Json b /\ Silent a = Silent b /\ Version a = Version b /\
  Retries a = Retries b /\ Verbose a = Verbose b /\ NoColor a = NoColor b /\
  Threads a = Threads b /\ MassdnsRaw a = MassdnsRaw b /\
  WildcardThreads a = WildcardThreads b /\
  StrictWildcard a = StrictWildcard b /\
  WildcardOutputFile a = WildcardOutputFile b /\
  MassDnsCmd a = MassDnsCmd b.

(** ** Validation errors

    The three classes of the specification's error taxonomy. *)

(** Modelled from the spec: the three operating modes the validator tells
    apart; the source has no type for them. *)
Inductive Mode : Type := BruteForce | ListResolution | RawValidation.

(** Modelled from the spec: the errors [validateOptions] returns, missing
    from the sources at hand with it.  An input error names the modes whose
    fields are all given (none, or more than one) and the fields at fault. *)
Inductive error : Type :=
| InputError (satisfied : list Mode) (fields : list string)
| FilesystemError (path : string)
| OutOfRange (field : string) (value : Z).

(** ** The process: standard input and the log of effects *)

(** The two destinations of [io.Copy]: [io.Discard] and a [bytes.Buffer]. *)
Inductive Sink : Type := Discard | Buffer.

(** One constructor per call that acts on the process.  Format strings are
    kept as the source spells them, escape sequences included. *)

Inductive Event : Type :=
| EvHasStdin (result : bool)                  (* fileutil.HasStdin() *)
| EvConfigureOutput (o : Options)              (* options.configureOutput() *)
| EvShowBanner                                 (* showBanner() *)
| EvInfo (format arg : string)                 (* gologger.Info().Msgf *)
| EvValidate (o : Options) (r : option error)  (* options.validateOptions() *)
| EvFatal (format : string) (err : error)      (* gologger.Fatal().Msgf *)
| EvCopyStdin (dst : Sink) (bytes : string)    (* io.Copy(dst, os.Stdin) *)
| EvExit (code : Z).                           (* os.Exit(code) *)

Record World : Type := mkWorld {
  piped : bool;        (* what the probe of standard input reports *)
  stdin : string;      (* the bytes still unread on os.Stdin *)
  log : list Event     (* effects so far, oldest first *)
}.

Definition emit (e : Event) (w : World) : World :=
  mkWorld (piped w) (stdin w) (log w ++ [e]).

(** A fresh process with the given standard input. *)
Definition start (p : bool) (bytes : string) : World := mkWorld p bytes [].

(** ** A state monad with process exit *)

Inductive Result (A : Type) : Type :=
| Return (a : A)
| Exited (code : Z).
Arguments Return {A} a.
Arguments Exited {A} code.

Definition M (A : Type) : Type := World -> Result A * World.

Definition ret {A} (a : A) : M A := fun w => (Return a, w).

Definition bind {A B} (m : M A) (k : A -> M B) : M B :=
  fun w =>
    match m w with
    | (Return a, w') => k a w'
    | (Exited c, w') => (Exited c, w')
    end.

Declare Scope go_scope.
Delimit Scope go_scope with go.
Notation "x <- m ;; k" := (bind m (fun x => k))
  (at level 100, m at next level, right associativity) : go_scope.
Notation "m ;; k" := (bind m (fun _ => k))
  (at level 100, right associativity) : go_scope.
Open Scope go_scope.

Definition when (b : bool) (m : M unit) : M unit :=
  if b then m else ret tt.

(** *** Primitive effects *)

(** [fileutil.HasStdin()], of an external library: reports whether standard
    input is a pipe or a redirection, without reading from it. *)
Definition HasStdin : M bool :=
  fun w => (Return (piped w), emit (EvHasStdin (piped w)) w).

(** Modelled from the spec: [configureOutput] is defined in a file that is
    not part of the sources at hand; the specification places output and
    logging set-up outside configuration resolution, so the call is an effect
    on the logger that reads the record and leaves it and standard input
    alone. *)
Definition configureOutput (o : Options) : M unit :=
  fun w => (Return tt, emit (EvConfigureOutput o) w).

(** Modelled from the spec: [showBanner] is defined in a file that is not
    part of the sources at hand; the specification lists the banner display
    as an external collaborator, so the call only prints. *)
Definition showBanner : M unit :=
  fun w => (Return tt, emit EvShowBanner w).

Definition Info_Msgf (format arg : string) : M unit :=
  fun w => (Return tt, emit (EvInfo format arg) w).

Definition os_Exit {A} (code : Z) : M A :=
  fun w => (Exited code, emit (EvExit code) w).

(** [gologger.Fatal().Msgf] logs and ends the process with status 1. *)
Definition Fatal_Msgf {A} (format : string) (err : error) : M A :=
  fun w => os_Exit 1 (emit (EvFatal format err) w).

(** [io.Copy(dst, os.Stdin)]: reads standard input to end-of-stream and
    hands every pending byte to [dst].  The source discards the byte count
    and the error of the copy; reads do not fail here. *)
Definition io_Copy (dst : Sink) : M string :=
  fun w =>
    (Return (stdin w),
     mkWorld (piped w) EmptyString (log w ++ [EvCopyStdin dst (stdin w)])).

(** ** ParseOptions (lines 41-121) *)

Section Runner.

(** [validateOptions] and the package constant [Version] are defined in
    files that are not part of the sources at hand.  The validator is a
    function from the record to an optional error, as its call site at line
    101 and the specification's contract have it. *)
Variable validateOptions : Options -> option error.
Variable CurrentVersion : string.

Definition call_validateOptions (o : Options) : M (option error) :=
  fun w => (Return (validateOptions o),
            emit (EvValidate o (validateOptions o)) w).

(** Lines 106-111: with all three flags given, stdin is drained. *)
Definition drainStdin (options : Options) : M Options :=
  if Stdin options &&
     (nonempty (Domain options) && nonempty (ResolversFile options) &&
      nonempty (Wordlist options))
  then (_ <- io_Copy Discard ;;
        ret (set_Stdin options false))
  else ret options.

(** Lines 113-118: the domain is read from stdin. *)
Definition readDomain (options : Options) : M Options :=
  if Stdin options && nonempty (Wordlist options)
  then (buffer <- io_Copy Buffer ;;
        ret (set_Domain options (strings.TrimRight buffer CRLF)))
  else ret options.

(** Lines 106-118 together: the reconciliation of stdin with the flags. *)
Definition reconcileStdin (options : Options) : M Options :=
  options <- drainStdin options ;;
  readDomain options.

(** [flags] is the record as [flagSet.Parse()] leaves it at line 84. *)
Definition ParseOptions (flags : Options) : M Options :=
  let options := flags in
  has <- HasStdin ;;
  let options := set_Stdin options has in
  configureOutput options ;;
  showBanner ;;
  when (Version options)
    (Info_Msgf "Current Version: %s\n" CurrentVersion ;;
     os_Exit 0) ;;
  err <- call_validateOptions options ;;
  match err with
  | Some e => Fatal_Msgf "Program exiting: %s\n" e
  | None => ret tt
  end ;;
  reconcileStdin options.

End Runner.

(** A run of the program from a fresh process. *)
Definition run (validateOptions : Options -> option error)
           (CurrentVersion : string) (flags : Options)
           (p : bool) (bytes : string) : Result Options * World :=
  ParseOptions validateOptions CurrentVersion flags (start p bytes).

(** ** The validator

    Modelled from the spec: [validateOptions] is defined in a file that is
    not part of the sources at hand.  The specification gives its contract,
    [Validate(config) -> error|nil], and its three checks in precedence:
    exactly one mode has all its required fields; the referenced paths that
    are set exist and are readable; the numeric fields are non-negative. *)

Section Validator.

(** The file system: which paths exist and are readable. *)
Variable readable : string -> bool.

(** Modelled from the spec: brute-force enumeration requires the domain, the
    wordlist and the resolver file. *)
Definition bruteForceReady (o : Options) : bool :=
  nonempty (Domain o) && nonempty (Wordlist o) && nonempty (ResolversFile o).

(** Modelled from the spec: list resolution requires the subdomain list and
    the resolver file. *)
Definition listReady (o : Options) : bool :=
  nonempty (SubdomainsList o) && nonempty (ResolversFile o).

(** Modelled from the spec: raw-output validation requires the raw input. *)
Definition rawReady (o : Options) : bool :=
  nonempty (MassdnsRaw o).

(** Modelled from the spec: the modes that have all their required fields. *)
Definition satisfiedModes (o : Options) : list Mode :=
  (if bruteForceReady o then [BruteForce] else []) ++
  (if listReady o then [ListResolution] else []) ++
  (if rawReady o then [RawValidation] else []).

(** Modelled from the spec: the input fields by flag name, for the error's
    report. *)
Definition inputFields (o : Options) : list (string * string) :=
  [("domain", Domain o); ("wordlist", Wordlist o);
   ("resolver", ResolversFile o); ("list", SubdomainsList o);
   ("raw-input", MassdnsRaw o)].

(** Modelled from the spec: the names of the input fields that are empty
    ([want = false], the missing ones) or populated ([want = true], the
    conflicting ones). *)
Definition fieldsWhere (want : bool) (o : Options) : list string :=
  map fst (filter (fun f => Bool.eqb (nonempty (snd f)) want)
                  (inputFields o)).

(** Modelled from the spec: exactly one mode has all of its required fields;
    with none or more than one, an input error. *)
Definition checkModes (o : Options) : option error :=
  match satisfiedModes o with
  | [_] => None
  | [] => Some (InputError [] (fieldsWhere false o))
  | ms => Some (InputError ms (fieldsWhere true o))
  end.

(** Modelled from the spec: the first path that is set and is not
    readable. *)
Fixpoint firstUnreadable (paths : list string) : option string :=
  match paths with
  | [] => None
  | p :: rest =>
      if nonempty p && negb (readable p) then Some p
      else firstUnreadable rest
  end.

(** Modelled from the spec: the referenced paths, when set, exist and are
    readable; the error reports the path. *)
Definition checkPaths (o : Options) : option error :=
  match firstUnreadable [ResolversFile o; Wordlist o; SubdomainsList o;
                         MassdnsRaw o; MassdnsPath o] with
  | Some p => Some (FilesystemError p)
  | None => None
  end.

(** Modelled from the spec: thread and retry counts are non-negative; the
    error reports the field and the value. *)
Definition checkBounds (o : Options) : option error :=
  if (Threads o <? 0)%Z then Some (OutOfRange "threads" (Threads o))
  else if (Retries o <? 0)%Z then Some (OutOfRange "retries" (Retries o))
  else if (WildcardThreads o <? 0)%Z
       then Some (OutOfRange "wildcard-threads" (WildcardThreads o))
  else None.

(** Modelled from the spec: the body of [validateOptions], which is missing
    from the sources at hand; the three checks of the specification, the
    first error winning. *)
Definition Validate (o : Options) : option error :=
  match checkModes o with
  | Some e => Some e
  | None =>
      match checkPaths o with
      | Some e => Some e
      | None => checkBounds o
      end
  end.

End Validator.

(** A file system on which every path is readable. *)
Definition allReadable (_ : string) : bool := true.

(** ** Observations on the log *)

Definition is_probe (e : Event) : bool :=
  match e with EvHasStdin _ => true | _ => false end.

Definition is_stdin_read (e : Event) : bool :=
  match e with EvCopyStdin _ _ => true | _ => false end.

Definition is_drain (e : Event) : bool :=
  match e with EvCopyStdin Discard _ => true | _ => false end.

Definition is_domain_read (e : Event) : bool :=
  match e with EvCopyStdin Buffer _ => true | _ => false end.

Definition is_validation (e : Event) : bool :=
  match e with EvValidate _ _ => true | _ => false end.

Definition count (p : Event -> bool) (l : list Event) : nat :=
  length (filter p l).

(** ASCII whitespace: space, tab, line feed, vertical tab, form feed and
    carriage return. *)
Definition is_space (c : ascii) : bool :=
  let n := Ascii.nat_of_ascii c in
  Nat.eqb n 32 || (Nat.leb 9 n && Nat.leb n 13).

Fixpoint all_space (s : string) : bool :=
  match s with
  | EmptyString => true
  | String c rest => is_space c && all_space rest
  end.

(** The effects every run starts with (lines 87-93). *)
Definition prelude (flags : Options) (p : bool) : list Event :=
  [EvHasStdin p; EvConfigureOutput (set_Stdin flags p); EvShowBanner].

(** Whether the three flags of line 107 are all given. *)
Definition allGiven (o : Options) : bool :=
  nonempty (Domain o) && nonempty (ResolversFile o) && nonempty (Wordlist o).

(** ** Sample inputs *)

Definition with_flags (d l w r ri : string) : Options :=
  {| Directory := EmptyString;
     Domain := d;
     SubdomainsList := l;
     ResolversFile := r;
     Wordlist := w;
     MassdnsPath := EmptyString;
     Output := EmptyString;
     Json := false;
     Silent := false;
     Version := false;
     Retries := 5;
     Verbose := false;
     NoColor := false;
     Threads := 10000;
     MassdnsRaw := ri;
     WildcardThreads := 25;
     StrictWildcard := false;
     WildcardOutputFile := EmptyString;
     MassDnsCmd := EmptyString;
     Stdin := false |}.

(** [-w words.txt -ri raw.txt] *)
Definition wordlist_raw_flags : Options :=
  with_flags EmptyString EmptyString "words.txt" EmptyString "raw.txt".

(** [-d target.com -w words.txt -r resolvers.txt] *)
Definition all_three_flags : Options :=
  with_flags "target.com" EmptyString "words.txt" "resolvers.txt" EmptyString.

(** [-d target.com -w words.txt -ri raw.txt] *)
Definition domain_wordlist_raw_flags : Options :=
  with_flags "target.com" EmptyString "words.txt" EmptyString "raw.txt".

(** [-w words.txt -r resolvers.txt] *)
Definition wordlist_resolver_flags : Options :=
  with_flags EmptyString EmptyString "words.txt" "resolvers.txt" EmptyString.

(** The record after [--version] alone. *)
Definition version_flags : Options :=
  {| Directory := EmptyString;
     Domain := EmptyString;
     SubdomainsList := EmptyString;
     ResolversFile := EmptyString;
     Wordlist := EmptyString;
     MassdnsPath := EmptyString;
     Output := EmptyString;
     Json := false;
     Silent := false;
     Version := true;
     Retries := 5;
     Verbose := false;
     NoColor := false;
     Threads := 10000;
     MassdnsRaw := EmptyString;
     WildcardThreads := 25;
     StrictWildcard := false;
     WildcardOutputFile := EmptyString;
     MassDnsCmd := EmptyString;
     Stdin := false |}.

(** A value for the package's version constant. *)
Definition someVersion : string := "1.0.0".

(** Bytes on standard input. *)
Definition example_com_crlf : string := "example.com" ++ CRLF.
Definition other_com_lf : string := "other.com" ++ String LF EmptyString.
Definition spaces_lf : string := "  " ++ String LF EmptyString.

(** ** The flag set (lines 42-82 and 123-128)

    [ParseOptions] declares its flags on a [goflags] flag set and files them
    in groups with [createGroup].  The library keeps, per flag set, the
    names registered on the command line with the variable each one sets, a
    table from names to flag descriptions, and the list of groups.  A flag
    description is a mutable object that [createGroup] reaches through the
    pointer its declaration returned, so the descriptions live in a store and
    a pointer is an index into it. *)

(** The fields of [Options] a declaration can point to, by type. *)
Inductive StringField : Type :=
| FDirectory | FDomain | FSubdomainsList | FResolversFile | FWordlist
| FMassdnsPath | FOutput | FMassdnsRaw | FWildcardOutputFile | FMassDnsCmd.

Inductive IntField : Type := FRetries | FThreads | FWildcardThreads.

Inductive BoolField : Type :=
| FJson | FSilent | FVersion | FVerbose | FNoColor | FStrictWildcard | FStdin.

(** [&options.X] *)
Inductive FieldPtr : Type :=
| StringPtr (f : StringField)
| IntPtr (f : IntField)
| BoolPtr (f : BoolField).

(** A default value, as the description of a flag records it. *)
Inductive FlagValue : Type :=
| VString (s : string)
| VInt (z : Z)
| VBool (b : bool).

(** Assignment through a pointer to a string field. *)
Definition set_string (f : StringField) (v : string) (o : Options) : Options :=
  mkOptions
    (match f with FDirectory => v | _ => Directory o end)
    (match f with FDomain => v | _ => Domain o end)
    (match f with FSubdomainsList => v | _ => SubdomainsList o end)
    (match f with FResolversFile => v | _ => ResolversFile o end)
    (match f with FWordlist => v | _ => Wordlist o end)
    (match f with FMassdnsPath => v | _ => MassdnsPath o end)
    (match f with FOutput => v | _ => Output o end)
    (Json o) (Silent o) (Version o) (Retries o) (Verbose o) (NoColor o)
    (Threads o)
    (match f with FMassdnsRaw => v | _ => MassdnsRaw o end)
    (WildcardThreads o) (StrictWildcard o)
    (match f with FWildcardOutputFile => v | _ => WildcardOutputFile o end)
    (match f with FMassDnsCmd => v | _ => MassDnsCmd o end)
    (Stdin o).

(** Assignment through a pointer to an integer field. *)
Definition set_int (f : IntField) (v : Z) (o : Options) : Options :=
  mkOptions
    (Directory o) (Domain o) (SubdomainsList o) (ResolversFile o)
    (Wordlist o) (MassdnsPath o) (Output o) (Json o) (Silent o) (Version o)
    (match f with FRetries => v | _ => Retries o end)
    (Verbose o) (NoColor o)
    (match f with FThreads => v | _ => Threads o end)
    (MassdnsRaw o)
    (match f with FWildcardThreads => v | _ => WildcardThreads o end)
    (StrictWildcard o) (WildcardOutputFile o) (MassDnsCmd o) (Stdin o).

(** Assignment through a pointer to a boolean field. *)
Definition set_bool (f : BoolField) (v : bool) (o : Options) : Options :=
  mkOptions
    (Directory o) (Domain o) (SubdomainsList o) (ResolversFile o)
    (Wordlist o) (MassdnsPath o) (Output o)
    (match f with FJson => v | _ => Json o end)
    (match f with FSilent => v | _ => Silent o end)
    (match f with FVersion => v | _ => Version o end)
    (Retries o)
    (match f with FVerbose => v | _ => Verbose o end)
    (match f with FNoColor => v | _ => NoColor o end)
    (Threads o) (MassdnsRaw o) (WildcardThreads o)
    (match f with FStrictWildcard => v | _ => StrictWildcard o end)
    (WildcardOutputFile o) (MassDnsCmd o)
    (match f with FStdin => v | _ => Stdin o end).

(** [&Options{}] of line 42: every field at its zero value. *)
Definition zeroOptions : Options :=
  {| Directory := EmptyString;
     Domain := EmptyString;
     SubdomainsList := EmptyString;
     ResolversFile := EmptyString;
     Wordlist := EmptyString;
     MassdnsPath := EmptyString;
     Output := EmptyString;
     Json := false;
     Silent := false;
     Version := false;
     Retries := 0;
     Verbose := false;
     NoColor := false;
     Threads := 0;
     MassdnsRaw := EmptyString;
     WildcardThreads := 0;
     StrictWildcard := false;
     WildcardOutputFile := EmptyString;
     MassDnsCmd := EmptyString;
     Stdin := false |}.

(** The description of one flag, [goflags.FlagData]. *)
Record FlagData : Type := mkFlagData {
  usage : string;
  short : string;
  long : string;
  defaultValue : FlagValue;
  group : string
}.

(** [goflags.FlagSet]. *)
Record FlagSet : Type := mkFlagSet {
  description : string;
  CommandLine : list (string * FieldPtr);  (* registered name, variable set *)
  flagKeys : list (string * nat);          (* name, pointer to its FlagData *)
  flagStore : list FlagData;               (* the FlagData objects *)
  groups : list (string * string)          (* group name, description *)
}.

(** [goflags.NewFlagSet()] *)
Definition NewFlagSet : FlagSet := mkFlagSet EmptyString [] [] [] [].

(** *** Building: state is the flag set and the record, failure is a panic *)

Definition Build (A : Type) : Type :=
  FlagSet * Options -> option (A * (FlagSet * Options)).

Definition retB {A} (a : A) : Build A := fun s => Some (a, s).

Definition bindB {A B} (m : Build A) (k : A -> Build B) : Build B :=
  fun s =>
    match m s with
    | Some (a, s') => k a s'
    | None => None
    end.

Declare Scope flag_scope.
Delimit Scope flag_scope with flag.
Notation "x <- m ;; k" := (bindB m (fun x => k))
  (at level 100, m at next level, right associativity) : flag_scope.
Notation "m ;; k" := (bindB m (fun _ => k))
  (at level 100, right associativity) : flag_scope.

Definition registered (name : string) (fs : FlagSet) : bool :=
  existsb (fun e => String.eqb (fst e) name) (CommandLine fs).

(** The standard library's registration of a name for a variable: it
    panics when the name is taken ("flag redefined"). *)
Definition CommandLine_Var (ptr : FieldPtr) (name : string) : Build unit :=
  fun s =>
    let (fs, o) := s in
    if registered name fs then None
    else Some (tt,
               (mkFlagSet (description fs) (CommandLine fs ++ [(name, ptr)])
                          (flagKeys fs) (flagStore fs) (groups fs),
                o)).

(** The declarations store the default in the variable at once. *)
Definition assignDefault (ptr : FieldPtr) (v : FlagValue) (o : Options)
  : Options :=
  match ptr, v with
  | StringPtr f, VString s => set_string f s o
  | IntPtr f, VInt z => set_int f z o
  | BoolPtr f, VBool b => set_bool f b o
  | _, _ => o
  end.

Definition storeDefault (ptr : FieldPtr) (v : FlagValue) : Build unit :=
  fun s => Some (tt, (fst s, assignDefault ptr v (snd s))).

(** [CommandLine.StringVar(field, name, value, usage)] and its like: the
    default is stored, then the name is registered. *)
Definition CommandLine_declare (ptr : FieldPtr) (name : string)
           (v : FlagValue) : Build unit :=
  (storeDefault ptr v ;;
   CommandLine_Var ptr name)%flag.

(** [&FlagData{...}]: a new object in the store; its pointer. *)
Definition newFlagData (d : FlagData) : Build nat :=
  fun s =>
    let (fs, o) := s in
    Some (length (flagStore fs),
          (mkFlagSet (description fs) (CommandLine fs) (flagKeys fs)
                     (flagStore fs ++ [d]) (groups fs),
           o)).

Fixpoint setKey (key : string) (p : nat) (m : list (string * nat))
  : list (string * nat) :=
  match m with
  | [] => [(key, p)]
  | (k, q) :: rest =>
      if String.eqb k key then (k, p) :: rest
      else (k, q) :: setKey key p rest
  end.

(** [flagSet.flagKeys.Set(key, flagData)] on the insertion-ordered map. *)
Definition flagKeys_Set (key : string) (p : nat) : Build unit :=
  fun s =>
    let (fs, o) := s in
    Some (tt,
          (mkFlagSet (description fs) (CommandLine fs)
                     (setKey key p (flagKeys fs)) (flagStore fs) (groups fs),
           o)).

(** A declaration with a long and a short name. *)
Definition VarP (ptr : FieldPtr) (long short : string) (v : FlagValue)
           (usage : string) : Build nat :=
  (CommandLine_declare ptr short v ;;
   CommandLine_declare ptr long v ;;
   p <- newFlagData (mkFlagData usage short long v EmptyString) ;;
   flagKeys_Set short p ;;
   flagKeys_Set long p ;;
   retB p)%flag.

(** A declaration with one name. *)
Definition Var (ptr : FieldPtr) (long : string) (v : FlagValue)
           (usage : string) : Build nat :=
  (CommandLine_declare ptr long v ;;
   p <- newFlagData (mkFlagData usage EmptyString long v EmptyString) ;;
   flagKeys_Set long p ;;
   retB p)%flag.

Definition StringVarP (f : StringField) (long short defaultValue usage : string)
  : Build nat :=
  VarP (StringPtr f) long short (VString defaultValue) usage.

Definition StringVar (f : StringField) (long defaultValue usage : string)
  : Build nat :=
  Var (StringPtr f) long (VString defaultValue) usage.

Definition IntVar (f : IntField) (long : string) (defaultValue : Z)
           (usage : string) : Build nat :=
  Var (IntPtr f) long (VInt defaultValue) usage.

Definition BoolVarP (f : BoolField) (long short : string)
           (defaultValue : bool) (usage : string) : Build nat :=
  VarP (BoolPtr f) long short (VBool defaultValue) usage.

Definition BoolVar (f : BoolField) (long : string) (defaultValue : bool)
           (usage : string) : Build nat :=
  Var (BoolPtr f) long (VBool defaultValue) usage.

(** [flagSet.SetDescription(description)] *)
Definition SetDescription (d : string) : Build unit :=
  fun s =>
    let (fs, o) := s in
    Some (tt,
          (mkFlagSet d (CommandLine fs) (flagKeys fs) (flagStore fs)
                     (groups fs),
           o)).

(** [flagSet.SetGroup(name, description)]: the group is added at the end. *)
Definition SetGroup (name descr : string) : Build unit :=
  fun s =>
    let (fs, o) := s in
    Some (tt,
          (mkFlagSet (description fs) (CommandLine fs) (flagKeys fs)
                     (flagStore fs) (groups fs ++ [(name, descr)]),
           o)).

Definition regroup (name : string) (d : FlagData) : FlagData :=
  mkFlagData (usage d) (short d) (long d) (defaultValue d) name.

Fixpoint updateAt (p : nat) (f : FlagData -> FlagData) (l : list FlagData)
  : option (list FlagData) :=
  match l, p with
  | [], _ => None
  | d :: rest, O => Some (f d :: rest)
  | d :: rest, S q =>
      match updateAt q f rest with
      | Some rest' => Some (d :: rest')
      | None => None
      end
  end.

(** [currentFlag.Group(name)]: writes the group into the object the pointer
    refers to.  A pointer to no object cannot come out of a declaration; a
    dereference of one would panic. *)
Definition Group (currentFlag : nat) (name : string) : Build unit :=
  fun s =>
    let (fs, o) := s in
    match updateAt currentFlag (regroup name) (flagStore fs) with
    | Some store' =>
        Some (tt,
              (mkFlagSet (description fs) (CommandLine fs) (flagKeys fs)
                         store' (groups fs),
               o))
    | None => None
    end.

(** The [for ... range flags] loop of lines 125-127. *)
Fixpoint forEachFlag (flags : list nat) (body : nat -> Build unit)
  : Build unit :=
  match flags with
  | [] => retB tt
  | currentFlag :: rest =>
      (body currentFlag ;; forEachFlag rest body)%flag
  end.

(** [createGroup] (lines 123-128); the flag set is the state. *)
Definition createGroup (groupName descr : string) (flags : list nat)
  : Build unit :=
  (SetGroup groupName descr ;;
   forEachFlag flags (fun currentFlag => Group currentFlag groupName))%flag.

(** Lines 44-82 of [ParseOptions]: the declarations, group by group.  The
    declarations of a group are arguments of its [createGroup] call, so
    they run before it, from left to right. *)
Definition declareFlags : Build unit :=
  (SetDescription
     ("shuffleDNS is a wrapper around massdns written in go that allows " ++
      "you to enumerate valid subdomains using active bruteforce as well " ++
      "as resolve subdomains with wildcard handling and easy input-output " ++
      "support.") ;;
   fDomain <- StringVarP FDomain "domain" "d" EmptyString
     "Domain to find or resolve subdomains for" ;;
   fList <- StringVarP FSubdomainsList "list" "l" EmptyString
     "File containing list of subdomains to resolve" ;;
   fWordlist <- StringVarP FWordlist "wordlist" "w" EmptyString
     "File containing words to bruteforce for domain" ;;
   fResolver <- StringVarP FResolversFile "resolver" "r" EmptyString
     "File containing list of resolvers for enumeration" ;;
   fRawInput <- StringVarP FMassdnsRaw "raw-input" "ri" EmptyString
     "Validate raw full massdns output" ;;
   createGroup "input" "Input"
     [fDomain; fList; fWordlist; fResolver; fRawInput] ;;
   fThreads <- IntVar FThreads "t" 10000
     "Number of concurrent massdns resolves" ;;
   createGroup "rate-limit" "Rate-Limit" [fThreads] ;;
   fOutput <- StringVarP FOutput "output" "o" EmptyString
     "File to write output to (optional)" ;;
   fJson <- BoolVarP FJson "json" "j" false "Make output format as ndjson" ;;
   fWildcardOutput <- StringVarP FWildcardOutputFile "wildcard-output" "wo"
     EmptyString "Dump wildcard ips to output file" ;;
   createGroup "output" "Output" [fOutput; fJson; fWildcardOutput] ;;
   fMassdns <- StringVarP FMassdnsPath "massdns" "m" EmptyString
     "Path to the massdns binary" ;;
   fMassdnsCmd <- StringVarP FMassDnsCmd "massdns-cmd" "mcmd" EmptyString
     "Optional massdns commands to run (example '-i 10')" ;;
   fDirectory <- StringVar FDirectory "directory" EmptyString
     "Temporary directory for enumeration" ;;
   createGroup "configs" "Configurations" [fMassdns; fMassdnsCmd; fDirectory] ;;
   fRetries <- IntVar FRetries "retries" 5
     "Number of retries for dns enumeration" ;;
   fStrictWildcard <- BoolVarP FStrictWildcard "strict-wildcard" "sw" false
     "Perform wildcard check on all found subdomains" ;;
   fWildcardThreads <- IntVar FWildcardThreads "wt" 25
     "Number of concurrent wildcard checks" ;;
   createGroup "Optimizations" "Optimizations"
     [fRetries; fStrictWildcard; fWildcardThreads] ;;
   fSilent <- BoolVar FSilent "silent" false "Show only subdomains in output" ;;
   fVersion <- BoolVar FVersion "version" false "Show version of shuffledns" ;;
   fVerbose <- BoolVar FVerbose "v" false "Show Verbose output" ;;
   fNoColor <- BoolVarP FNoColor "no-color" "nc" false
     "Don't Use colors in output" ;;
   createGroup "debug" "Debug" [fSilent; fVersion; fVerbose; fNoColor])%flag.

(** The flag set the declarations build on a fresh one, evaluated. *)
Definition declaredFlagSet : FlagSet :=
  Eval vm_compute in
    match declareFlags (NewFlagSet, zeroOptions) with
    | Some (_, (fs, _)) => fs
    | None => NewFlagSet
    end.

(** *** Reading a flag set *)

(** The variable a command-line name sets. *)
Fixpoint lookupName (name : string) (l : list (string * FieldPtr))
  : option FieldPtr :=
  match l with
  | [] => None
  | (k, ptr) :: rest =>
      if String.eqb k name then Some ptr else lookupName name rest
  end.

(** The pointer a name has in the table of descriptions. *)
Fixpoint lookupKey (name : string) (l : list (string * nat)) : option nat :=
  match l with
  | [] => None
  | (k, p) :: rest =>
      if String.eqb k name then Some p else lookupKey name rest
  end.

(** The names of the groups of a flag set. *)
Definition groupNames (fs : FlagSet) : list string := map fst (groups fs).

(** * Properties *)

(** The sample records are flag parses: without input flags they are the
    declared defaults. *)
Example with_no_flags_is_default :
  with_flags EmptyString EmptyString EmptyString EmptyString EmptyString =
  defaultOptions.
Proof. reflexivity. Qed.

(** ** Trimming *)

Lemma TrimRight_split (cutset s : string) :
  exists tail,
    s = strings.TrimRight s cutset ++ tail /\
    strings.all_in cutset tail = true.
Proof.
  induction s as [|c rest IH]; simpl.
  - exists EmptyString. split; reflexivity.
  - destruct IH as [tail [Hs Hall]].
    destruct (strings.TrimRight rest cutset) as [|k kept] eqn:Hk.
    + simpl in Hs. subst tail.
      destruct (strings.contains cutset c) eqn:Hc.
      * exists (String c rest). simpl. rewrite Hc, Hall. split; reflexivity.
      * exists rest. split; [reflexivity | exact Hall].
    + exists tail. split; [| exact Hall].
      simpl. f_equal. exact Hs.
Qed.

Lemma TrimRight_last (cutset s : string) (c : ascii) :
  strings.last_byte (strings.TrimRight s cutset) = Some c ->
  strings.contains cutset c = false.
Proof.
  induction s as [|d rest IH]; simpl; [discriminate|].
  destruct (strings.TrimRight rest cutset) as [|k kept] eqn:Hk.
  - destruct (strings.contains cutset d) eqn:Hd; simpl; [discriminate|].
    intros H. injection H as <-. exact Hd.
  - intros H. apply IH. exact H.
Qed.

Lemma TrimRight_all_in (cutset s : string) :
  strings.all_in cutset s = true -> strings.TrimRight s cutset = EmptyString.
Proof.
  induction s as [|c rest IH]; simpl; [reflexivity|].
  intros H. apply andb_prop in H. destruct H as [Hc Hrest].
  rewrite (IH Hrest), Hc. reflexivity.
Qed.

Lemma TrimRight_empty_inv (cutset s : string) :
  strings.TrimRight s cutset = EmptyString -> strings.all_in cutset s = true.
Proof.
  induction s as [|c rest IH]; simpl; [reflexivity|].
  destruct (strings.TrimRight rest cutset) as [|k kept] eqn:Hk.
  - destruct (strings.contains cutset c); [|discriminate].
    intros _. simpl. apply IH. reflexivity.
  - discriminate.
Qed.

(** ** The run, case by case *)

Section Equations.

Variable validateOptions : Options -> option error.
Variable CurrentVersion : string.

Let parse := ParseOptions validateOptions CurrentVersion.

Lemma ParseOptions_version (flags : Options) (w : World) :
  Version flags = true ->
  parse flags w =
  (Exited 0,
   mkWorld (piped w) (stdin w)
     (log w ++ prelude flags (piped w) ++
      [EvInfo "Current Version: %s\n" CurrentVersion; EvExit 0])).
Proof.
  intros Hv. unfold parse, ParseOptions, bind, HasStdin, configureOutput,
    showBanner, when, emit; simpl.
  rewrite Hv. unfold bind, Info_Msgf, os_Exit, emit, prelude; simpl.
  repeat rewrite <- app_assoc. reflexivity.
Qed.

Lemma ParseOptions_invalid (flags : Options) (w : World) (e : error) :
  Version flags = false ->
  validateOptions (set_Stdin flags (piped w)) = Some e ->
  parse flags w =
  (Exited 1,
   mkWorld (piped w) (stdin w)
     (log w ++ prelude flags (piped w) ++
      [EvValidate (set_Stdin flags (piped w)) (Some e);
       EvFatal "Program exiting: %s\n" e; EvExit 1])).
Proof.
  intros Hv He. unfold parse, ParseOptions, bind, HasStdin, configureOutput,
    showBanner, when, emit, call_validateOptions; simpl.
  rewrite Hv. unfold ret; simpl. rewrite He.
  unfold Fatal_Msgf, os_Exit, emit, prelude; simpl.
  repeat rewrite <- app_assoc. reflexivity.
Qed.

Lemma ParseOptions_valid (flags : Options) (w : World) :
  Version flags = false ->
  validateOptions (set_Stdin flags (piped w)) = None ->
  parse flags w =
  reconcileStdin (set_Stdin flags (piped w))
    (mkWorld (piped w) (stdin w)
       (log w ++ prelude flags (piped w) ++
        [EvValidate (set_Stdin flags (piped w)) None])).
Proof.
  intros Hv He. unfold parse, ParseOptions, bind, HasStdin, configureOutput,
    showBanner, when, emit, call_validateOptions; simpl.
  rewrite Hv. unfold ret; simpl. rewrite He.
  unfold prelude, emit; simpl.
  repeat rewrite <- app_assoc. reflexivity.
Qed.

End Equations.

Lemma reconcileStdin_drain (o : Options) (w : World) :
  Stdin o = true -> allGiven o = true ->
  reconcileStdin o w =
  (Return (set_Stdin o false),
   mkWorld (piped w) EmptyString (log w ++ [EvCopyStdin Discard (stdin w)])).
Proof.
  unfold allGiven. intros Hs Ha.
  unfold reconcileStdin, drainStdin, readDomain, bind.
  rewrite Hs, Ha. reflexivity.
Qed.

Lemma reconcileStdin_read (o : Options) (w : World) :
  Stdin o = true -> allGiven o = false -> nonempty (Wordlist o) = true ->
  reconcileStdin o w =
  (Return (set_Domain o (strings.TrimRight (stdin w) CRLF)),
   mkWorld (piped w) EmptyString (log w ++ [EvCopyStdin Buffer (stdin w)])).
Proof.
  unfold allGiven. intros Hs Ha Hw.
  unfold reconcileStdin, drainStdin, readDomain, bind.
  rewrite Hs, Ha. unfold ret; simpl. rewrite Hs, Hw. reflexivity.
Qed.

Lemma reconcileStdin_skip (o : Options) (w : World) :
  Stdin o && nonempty (Wordlist o) = false ->
  reconcileStdin o w = (Return o, w).
Proof.
  intros H. unfold reconcileStdin, drainStdin, readDomain, bind, ret.
  destruct (Stdin o) eqn:Hs; simpl in H.
  - rewrite H, andb_false_r. simpl. rewrite Hs, H. reflexivity.
  - simpl. rewrite Hs. reflexivity.
Qed.

(** The three cases are exhaustive. *)
Lemma reconcileStdin_cases (o : Options) :
  (Stdin o = true /\ allGiven o = true) \/
  (Stdin o = true /\ allGiven o = false /\ nonempty (Wordlist o) = true) \/
  Stdin o && nonempty (Wordlist o) = false.
Proof.
  unfold allGiven.
  destruct (Stdin o), (nonempty (Domain o)), (nonempty (ResolversFile o)),
    (nonempty (Wordlist o)); simpl; auto.
Qed.

(** ** Runs from a fresh process *)

Section Runs.

Variable validateOptions : Options -> option error.
Variable CurrentVersion : string.

Let go := run validateOptions CurrentVersion.

Lemma run_version (flags : Options) (p : bool) (bytes : string) :
  Version flags = true ->
  go flags p bytes =
  (Exited 0,
   mkWorld p bytes
     (prelude flags p ++
      [EvInfo "Current Version: %s\n" CurrentVersion; EvExit 0])).
Proof.
  intros Hv. unfold go, run. rewrite ParseOptions_version by exact Hv.
  reflexivity.
Qed.

Lemma run_invalid (flags : Options) (p : bool) (bytes : string) (e : error) :
  Version flags = false ->
  validateOptions (set_Stdin flags p) = Some e ->
  go flags p bytes =
  (Exited 1,
   mkWorld p bytes
     (prelude flags p ++
      [EvValidate (set_Stdin flags p) (Some e);
       EvFatal "Program exiting: %s\n" e; EvExit 1])).
Proof.
  intros Hv He. unfold go, run.
  rewrite (ParseOptions_invalid _ _ _ _ e) by assumption.
  reflexivity.
Qed.

Lemma run_drain (flags : Options) (bytes : string) :
  Version flags = false ->
  validateOptions (set_Stdin flags true) = None ->
  allGiven flags = true ->
  go flags true bytes =
  (Return (set_Stdin flags false),
   mkWorld true EmptyString
     (prelude flags true ++
      [EvValidate (set_Stdin flags true) None; EvCopyStdin Discard bytes])).
Proof.
  intros Hv He Ha. unfold go, run.
  rewrite ParseOptions_valid by assumption.
  rewrite reconcileStdin_drain by (try reflexivity; exact Ha).
  reflexivity.
Qed.

Lemma run_read (flags : Options) (bytes : string) :
  Version flags = false ->
  validateOptions (set_Stdin flags true) = None ->
  allGiven flags = false ->
  nonempty (Wordlist flags) = true ->
  go flags true bytes =
  (Return (set_Domain (set_Stdin flags true) (strings.TrimRight bytes CRLF)),
   mkWorld true EmptyString
     (prelude flags true ++
      [EvValidate (set_Stdin flags true) None; EvCopyStdin Buffer bytes])).
Proof.
  intros Hv He Ha Hw. unfold go, run.
  rewrite ParseOptions_valid by assumption.
  rewrite reconcileStdin_read by (try reflexivity; assumption).
  reflexivity.
Qed.

Lemma run_skip (flags : Options) (p : bool) (bytes : string) :
  Version flags = false ->
  validateOptions (set_Stdin flags p) = None ->
  p && nonempty (Wordlist flags) = false ->
  go flags p bytes =
  (Return (set_Stdin flags p),
   mkWorld p bytes
     (prelude flags p ++ [EvValidate (set_Stdin flags p) None])).
Proof.
  intros Hv He Hs. unfold go, run.
  rewrite ParseOptions_valid by assumption.
  rewrite reconcileStdin_skip by exact Hs.
  reflexivity.
Qed.

(** The five kinds of run: version exit, validation failure, drain, domain
    read, and stdin left alone. *)
Lemma run_kind (flags : Options) (p : bool) (bytes : string) :
  (Version flags = true /\
   go flags p bytes =
   (Exited 0,
    mkWorld p bytes
      (prelude flags p ++
       [EvInfo "Current Version: %s\n" CurrentVersion; EvExit 0]))) \/
  (exists e,
     Version flags = false /\
     validateOptions (set_Stdin flags p) = Some e /\
     go flags p bytes =
     (Exited 1,
      mkWorld p bytes
        (prelude flags p ++
         [EvValidate (set_Stdin flags p) (Some e);
          EvFatal "Program exiting: %s\n" e; EvExit 1]))) \/
  (Version flags = false /\
   validateOptions (set_Stdin flags p) = None /\
   p = true /\ allGiven flags = true /\
   go flags p bytes =
   (Return (set_Stdin flags false),
    mkWorld p EmptyString
      (prelude flags p ++
       [EvValidate (set_Stdin flags p) None; EvCopyStdin Discard bytes]))) \/
  (Version flags = false /\
   validateOptions (set_Stdin flags p) = None /\
   p = true /\ allGiven flags = false /\
   nonempty (Wordlist flags) = true /\
   go flags p bytes =
   (Return (set_Domain (set_Stdin flags p) (strings.TrimRight bytes CRLF)),
    mkWorld p EmptyString
      (prelude flags p ++
       [EvValidate (set_Stdin flags p) None; EvCopyStdin Buffer bytes]))) \/
  (Version flags = false /\
   validateOptions (set_Stdin flags p) = None /\
   p && nonempty (Wordlist flags) = false /\
   go flags p bytes =
   (Return (set_Stdin flags p),
    mkWorld p bytes
      (prelude flags p ++ [EvValidate (set_Stdin flags p) None]))).
Proof.
  destruct (Version flags) eqn:Hv.
  - left. split; [reflexivity | apply run_version; exact Hv].
  - right.
    destruct (validateOptions (set_Stdin flags p)) as [e|] eqn:He.
    + left. exists e. repeat split. apply run_invalid; assumption.
    + right.
      destruct (reconcileStdin_cases (set_Stdin flags p))
        as [[Hs Ha] | [[Hs [Ha Hw]] | Hs]]; simpl in Hs.
      * subst p. left. repeat split; auto. apply run_drain; assumption.
      * subst p. right; left. repeat split; auto.
        apply run_read; assumption.
      * right; right. repeat split; auto. apply run_skip; assumption.
Qed.

(** A run from any process state is the run from a fresh process with the
    same standard input, appended to the log so far. *)
Lemma ParseOptions_from_start (flags : Options) (w : World) :
  ParseOptions validateOptions CurrentVersion flags w =
  (fst (go flags (piped w) (stdin w)),
   mkWorld (piped w)
     (stdin (snd (go flags (piped w) (stdin w))))
     (log w ++ log (snd (go flags (piped w) (stdin w))))).
Proof.
  destruct (run_kind flags (piped w) (stdin w))
    as [[Hv E] | [[e [Hv [He E]]] | [[Hv [He [Hp [Ha E]]]] |
        [[Hv [He [Hp [Ha [Hw E]]]]] | [Hv [He [Hs E]]]]]]];
    rewrite E; simpl.
  - apply ParseOptions_version; exact Hv.
  - apply ParseOptions_invalid; assumption.
  - rewrite ParseOptions_valid by assumption.
    rewrite reconcileStdin_drain by (simpl; assumption).
    simpl. rewrite <- app_assoc. reflexivity.
  - rewrite ParseOptions_valid by assumption.
    rewrite reconcileStdin_read by (simpl; assumption).
    simpl. rewrite <- app_assoc. reflexivity.
  - rewrite ParseOptions_valid by assumption.
    rewrite reconcileStdin_skip by (simpl; assumption).
    reflexivity.
Qed.

End Runs.

(** ** The outcome in closed form *)

(** The outcome of a run, read off the flags, the probe, the validator's
    verdict on the probed flag record and the content of stdin. *)
Lemma run_outcome
    (validateOptions : Options -> option error) (CurrentVersion : string)
    (flags : Options) (p : bool) (bytes : string) :
  fst (run validateOptions CurrentVersion flags p bytes) =
  if Version flags then Exited 0
  else match validateOptions (set_Stdin flags p) with
       | Some _ => Exited 1
       | None =>
           Return
             (if p && allGiven flags then set_Stdin flags false
              else if p && nonempty (Wordlist flags)
                   then set_Domain (set_Stdin flags p)
                                   (strings.TrimRight bytes CRLF)
                   else set_Stdin flags p)
       end.
Proof.
  destruct (run_kind validateOptions CurrentVersion flags p bytes)
    as [[Hv E] | [[e [Hv [He E]]] | [[Hv [He [Hp [Ha E]]]] |
        [[Hv [He [Hp [Ha [Hw E]]]]] | [Hv [He [Hs E]]]]]]];
    rewrite E, Hv; simpl; try rewrite He; try reflexivity.
  - subst p. rewrite Ha. reflexivity.
  - subst p. rewrite Ha, Hw. reflexivity.
  - rewrite Hs.
    assert (Ha : p && allGiven flags = false).
    { destruct p; [|reflexivity]. simpl in *.
      unfold allGiven. rewrite Hs. apply andb_false_r. }
    rewrite Ha. reflexivity.
Qed.


(** * The claims *)

(** ** C1: the source of the domain *)

(** C1 as stated fails: line 114 does not look at [Domain], so with the
    domain and wordlist flags set and the resolver flag missing, the content
    of stdin replaces the flag's domain. *)
Lemma C1_stdin_overwrites_domain_flag :
  fst (run (Validate allReadable) someVersion
           domain_wordlist_raw_flags true other_com_lf) =
    Return (set_Domain (set_Stdin domain_wordlist_raw_flags true)
                       "other.com") /\
  ~ (forall (flags : Options) (p : bool) (bytes : string)
            (o : Options) (w' : World),
       nonempty (Domain flags) = true ->
       run (Validate allReadable) someVersion flags p bytes = (Return o, w') ->
       Domain o = Domain flags).
Proof.
  split; [reflexivity|].
  intros H.
  specialize (H domain_wordlist_raw_flags true other_com_lf _ _
                eq_refl eq_refl).
  discriminate H.
Qed.

(** C1, amended.  The returned [Domain] has one source.  Stdin is read into
    it only when stdin is available, the wordlist flag is set and the three
    flags domain, resolver and wordlist are not all given; it is then the
    trimmed content of stdin.  Otherwise it is the flag's value.  In
    particular, when the domain flag is set and the resolver flag is set, or
    the wordlist flag is not, or stdin is not available, the returned
    [Domain] is the flag's value. *)
Theorem C1_domain_has_one_source
    (validateOptions : Options -> option error) (CurrentVersion : string)
    (flags : Options) (p : bool) (bytes : string)
    (o : Options) (w' : World) :
  run validateOptions CurrentVersion flags p bytes = (Return o, w') ->
  (count is_domain_read (log w') = 0 /\ Domain o = Domain flags \/
   count is_domain_read (log w') = 1 /\
   p = true /\ nonempty (Wordlist flags) = true /\ allGiven flags = false /\
   Domain o = strings.TrimRight bytes CRLF) /\
  (nonempty (Domain flags) = true ->
   nonempty (ResolversFile flags) || negb (nonempty (Wordlist flags)) ||
     negb p = true ->
   Domain o = Domain flags).
Proof.
  intros Hrun.
  destruct (run_kind validateOptions CurrentVersion flags p bytes)
    as [[Hv E] | [[e [Hv [He E]]] | [[Hv [He [Hp [Ha E]]]] |
        [[Hv [He [Hp [Ha [Hw E]]]]] | [Hv [He [Hs E]]]]]]];
    rewrite E in Hrun; try discriminate Hrun;
    injection Hrun as <- <-; simpl.
  - split; [left; split; reflexivity | reflexivity].
  - split; [right; repeat split; assumption|].
    intros Hd Hside. exfalso.
    unfold allGiven in Ha. rewrite Hd, Hw, Hp in *.
    destruct (nonempty (ResolversFile flags)); discriminate.
  - split; [left; split; reflexivity | reflexivity].
Qed.

Lemma C1_domain_has_one_source_witness :
  exists o w',
    run (Validate allReadable) someVersion
        all_three_flags true "ignored.com" = (Return o, w') /\
    count is_domain_read (log w') = 0 /\
    Domain o = "target.com".
Proof.
  do 2 eexists. split; [cbv; reflexivity|]. split; [reflexivity|].
  apply (proj2 (C1_domain_has_one_source (Validate allReadable) someVersion
                    all_three_flags true "ignored.com" _ _ eq_refl));
    reflexivity.
Defined.

(** ** C2: validation and reconciliation, in time *)

(** C2 as stated fails: the validator is called at line 101, before the
    reconciliation of lines 106-118.  In this run the record it checks has an
    empty [Domain], stdin is read after the check, and the returned record
    carries the domain read from stdin. *)
Lemma C2_validator_sees_no_stdin_domain :
  run (Validate allReadable) someVersion
      wordlist_raw_flags true example_com_crlf =
    (Return (set_Domain (set_Stdin wordlist_raw_flags true) "example.com"),
     mkWorld true EmptyString
       [EvHasStdin true;
        EvConfigureOutput (set_Stdin wordlist_raw_flags true);
        EvShowBanner;
        EvValidate (set_Stdin wordlist_raw_flags true) None;
        EvCopyStdin Buffer example_com_crlf]) /\
  ~ (forall (flags : Options) (p : bool) (bytes : string)
            (o : Options) (w' : World)
            (before after : list Event) (c : Options) (r : option error),
       run (Validate allReadable) someVersion flags p bytes = (Return o, w') ->
       log w' = (before ++ EvValidate c r :: after)%list ->
       count is_stdin_read after = 0 /\ Domain c = Domain o).
Proof.
  split; [reflexivity|].
  intros H.
  destruct (H wordlist_raw_flags true example_com_crlf _ _
              [EvHasStdin true;
               EvConfigureOutput (set_Stdin wordlist_raw_flags true);
               EvShowBanner]
              [EvCopyStdin Buffer example_com_crlf]
              (set_Stdin wordlist_raw_flags true)
              None eq_refl eq_refl) as [Hcount _].
  discriminate Hcount.
Qed.

(** C2, amended.  Validation runs after the stdin probe and before the
    reconciliation: in every run without the version flag the log starts with
    the probe, the logger set-up, the banner and then the one call of the
    validator, on the flag record with [Stdin] set to the probe's result (so
    with the flag's [Domain]); no byte of stdin has been read by then, and
    whatever follows contains no further validation, and a read of stdin (at
    most one) only if the validator returned no error. *)
Theorem C2_validation_precedes_reconciliation
    (validateOptions : Options -> option error) (CurrentVersion : string)
    (flags : Options) (p : bool) (bytes : string) :
  Version flags = false ->
  exists after,
    log (snd (run validateOptions CurrentVersion flags p bytes)) =
      ([EvHasStdin p; EvConfigureOutput (set_Stdin flags p); EvShowBanner] ++
       EvValidate (set_Stdin flags p) (validateOptions (set_Stdin flags p))
       :: after)%list /\
    Domain (set_Stdin flags p) = Domain flags /\
    count is_validation after = 0 /\
    count is_stdin_read after <=
      match validateOptions (set_Stdin flags p) with
      | Some _ => 0
      | None => 1
      end.
Proof.
  intros Hv.
  destruct (run_kind validateOptions CurrentVersion flags p bytes)
    as [[Hv' E] | [[e [_ [He E]]] | [[_ [He [Hp [Ha E]]]] |
        [[_ [He [Hp [Ha [Hw E]]]]] | [_ [He [Hs E]]]]]]];
    [congruence | | | |]; rewrite E, He; simpl;
    eexists; (split; [reflexivity|]); (split; [reflexivity|]);
    unfold count; simpl; repeat split; lia.
Qed.

Lemma C2_validation_precedes_reconciliation_witness :
  exists after,
    log (snd (run (Validate allReadable) someVersion
                  wordlist_raw_flags true example_com_crlf)) =
      ([EvHasStdin true;
        EvConfigureOutput (set_Stdin wordlist_raw_flags true);
        EvShowBanner] ++
       EvValidate (set_Stdin wordlist_raw_flags true)
         (Validate allReadable
            (set_Stdin wordlist_raw_flags true))
       :: after)%list /\
    Domain (set_Stdin wordlist_raw_flags true) =
      Domain wordlist_raw_flags /\
    count is_validation after = 0 /\
    count is_stdin_read after <=
      match Validate allReadable
              (set_Stdin wordlist_raw_flags true) with
      | Some _ => 0
      | None => 1
      end.
Proof.
  apply (C2_validation_precedes_reconciliation (Validate allReadable)
           someVersion wordlist_raw_flags true example_com_crlf).
  reflexivity.
Defined.

(** ** C3: all three flags given *)

(** C3.  When [Domain], [ResolversFile] and [Wordlist] are all non-empty flag
    values and stdin is detected as available, the reconciliation
    (lines 106-118) copies every pending byte of stdin to the discard sink,
    leaves stdin at end-of-stream, sets [Stdin] to false and keeps the flag's
    [Domain]; and a run that reaches it (no version flag, validation passed)
    returns that record, with the drain as its only read of stdin. *)
Theorem C3_all_flags_drain_stdin
    (validateOptions : Options -> option error) (CurrentVersion : string)
    (flags : Options) (bytes : string) :
  nonempty (Domain flags) = true ->
  nonempty (ResolversFile flags) = true ->
  nonempty (Wordlist flags) = true ->
  reconcileStdin (set_Stdin flags true) (start true bytes) =
    (Return (set_Stdin flags false),
     mkWorld true EmptyString [EvCopyStdin Discard bytes]) /\
  (Version flags = false ->
   validateOptions (set_Stdin flags true) = None ->
   exists o w',
     run validateOptions CurrentVersion flags true bytes = (Return o, w') /\
     stdin w' = EmptyString /\
     Stdin o = false /\
     Domain o = Domain flags /\
     In (EvCopyStdin Discard bytes) (log w') /\
     count is_stdin_read (log w') = 1 /\
     count is_domain_read (log w') = 0).
Proof.
  intros Hd Hr Hw.
  assert (Ha : allGiven flags = true)
    by (unfold allGiven; rewrite Hd, Hr, Hw; reflexivity).
  split.
  - rewrite reconcileStdin_drain by (try reflexivity; exact Ha).
    reflexivity.
  - intros Hv He.
    exists (set_Stdin flags false).
    eexists. split; [apply run_drain; assumption|].
    simpl. repeat split; auto 10.
Qed.

Lemma C3_all_flags_drain_stdin_witness :
  exists o w',
    run (Validate allReadable) someVersion
        all_three_flags true "ignored.com" = (Return o, w') /\
    stdin w' = EmptyString /\
    Stdin o = false /\
    Domain o = "target.com" /\
    In (EvCopyStdin Discard "ignored.com") (log w') /\
    count is_stdin_read (log w') = 1 /\
    count is_domain_read (log w') = 0.
Proof.
  apply (proj2 (C3_all_flags_drain_stdin (Validate allReadable) someVersion
                    all_three_flags "ignored.com" eq_refl eq_refl eq_refl));
    reflexivity.
Defined.

(** ** C4: empty stdin *)

(** Whether a run returns a record is settled before stdin is read: it
    depends on the flags and on the probe, not on the content of stdin. *)
Lemma run_returns_iff
    (validateOptions : Options -> option error) (CurrentVersion : string)
    (flags : Options) (p : bool) (bytes : string) :
  (exists o,
     fst (run validateOptions CurrentVersion flags p bytes) = Return o) <->
  Version flags = false /\ validateOptions (set_Stdin flags p) = None.
Proof.
  destruct (run_kind validateOptions CurrentVersion flags p bytes)
    as [[Hv E] | [[e [Hv [He E]]] | [[Hv [He [Hp [Ha E]]]] |
        [[Hv [He [Hp [Ha [Hw E]]]]] | [Hv [He [Hs E]]]]]]];
    rewrite E; simpl; split;
    try (intros [o Ho]; discriminate Ho);
    try (intros [H1 H2]; congruence);
    try (intros _; split; assumption);
    intros _; eexists; reflexivity.
Qed.

(** C4 as stated fails: the record is validated at line 101, before stdin is
    read at line 116, so an empty stdin cannot make validation fail.  With
    the validator of the specification and the flags [-w words.txt -ri
    raw.txt], the empty stdin is read into [Domain] and the record is
    returned.  And whatever the validator is: if it lets the piped-domain
    run [-w words.txt -r resolvers.txt] with "example.com\r\n" on stdin
    through, then the same flags with an empty stdin return a record with an
    empty [Domain]. *)
Lemma C4_empty_stdin_accepted :
  fst (run (Validate allReadable) someVersion
           wordlist_raw_flags true EmptyString) =
    Return (set_Domain (set_Stdin wordlist_raw_flags true) EmptyString) /\
  ~ (forall (flags : Options) (o : Options),
       nonempty (Wordlist flags) = true ->
       Domain flags = EmptyString ->
       fst (run (Validate allReadable) someVersion flags true EmptyString) <>
       Return o) /\
  (forall (validateOptions : Options -> option error)
          (CurrentVersion : string),
     (exists o,
        fst (run validateOptions CurrentVersion wordlist_resolver_flags true
                 example_com_crlf) = Return o) ->
     fst (run validateOptions CurrentVersion wordlist_resolver_flags true
              EmptyString) =
       Return (set_Domain (set_Stdin wordlist_resolver_flags true)
                          EmptyString)).
Proof.
  split; [reflexivity|]. split.
  - intros H.
    apply (H wordlist_raw_flags
             (set_Domain (set_Stdin wordlist_raw_flags true) EmptyString));
      reflexivity.
  - intros validateOptions CurrentVersion Hidiom.
    apply run_returns_iff in Hidiom. destruct Hidiom as [Hv He].
    rewrite run_read by (assumption || reflexivity).
    reflexivity.
Qed.

(** C4, amended.  Take a run with the wordlist flag set, no domain flag, no
    version flag and stdin available.  The validator is asked once, about the
    flag record, before stdin is read.  If it accepts that record, the run
    with an empty stdin reads the empty stream into [Domain] and returns the
    record with an empty [Domain]: nothing rejects it.  If it rejects the
    record, the run ends with status 1 on that error without reading stdin,
    whatever stdin holds, empty or not. *)
Theorem C4_empty_stdin_verdict_precedes_read
    (validateOptions : Options -> option error) (CurrentVersion : string)
    (flags : Options) :
  Version flags = false ->
  nonempty (Wordlist flags) = true ->
  Domain flags = EmptyString ->
  match validateOptions (set_Stdin flags true) with
  | None =>
      run validateOptions CurrentVersion flags true EmptyString =
        (Return (set_Domain (set_Stdin flags true) EmptyString),
         mkWorld true EmptyString
           [EvHasStdin true; EvConfigureOutput (set_Stdin flags true);
            EvShowBanner; EvValidate (set_Stdin flags true) None;
            EvCopyStdin Buffer EmptyString])
  | Some e =>
      forall bytes,
        run validateOptions CurrentVersion flags true bytes =
          (Exited 1,
           mkWorld true bytes
             [EvHasStdin true; EvConfigureOutput (set_Stdin flags true);
              EvShowBanner; EvValidate (set_Stdin flags true) (Some e);
              EvFatal "Program exiting: %s\n" e; EvExit 1])
  end.
Proof.
  intros Hv Hw Hd.
  destruct (validateOptions (set_Stdin flags true)) as [e|] eqn:He.
  - intros bytes. apply run_invalid; assumption.
  - rewrite run_read; try assumption; [reflexivity|].
    unfold allGiven. rewrite Hd. reflexivity.
Qed.

Lemma C4_empty_stdin_verdict_precedes_read_witness :
  run (Validate allReadable) someVersion wordlist_raw_flags true
      EmptyString =
    (Return (set_Domain (set_Stdin wordlist_raw_flags true) EmptyString),
     mkWorld true EmptyString
       [EvHasStdin true;
        EvConfigureOutput (set_Stdin wordlist_raw_flags true);
        EvShowBanner;
        EvValidate (set_Stdin wordlist_raw_flags true) None;
        EvCopyStdin Buffer EmptyString]).
Proof.
  exact (C4_empty_stdin_verdict_precedes_read (Validate allReadable)
           someVersion wordlist_raw_flags eq_refl eq_refl eq_refl).
Defined.

(** ** C5: the domain read from stdin *)

Lemma allGiven_without_domain_or_resolver (o : Options) :
  nonempty (Domain o) && nonempty (ResolversFile o) = false ->
  allGiven o = false.
Proof.
  unfold allGiven. intros H. rewrite H. reflexivity.
Qed.

Lemma CRLF_not_last (s : string) :
  strings.last_byte (strings.TrimRight s CRLF) <> Some CR /\
  strings.last_byte (strings.TrimRight s CRLF) <> Some LF.
Proof.
  split; intros H; apply TrimRight_last in H; discriminate H.
Qed.

(** C5.  In a run that takes the domain from stdin (stdin available, the
    wordlist flag set, the domain or the resolver flag missing, no version
    flag, validation passed) the whole content of stdin is read and the
    returned [Domain] is that content without its trailing carriage returns
    and line feeds: the content is [Domain] followed by CR and LF bytes only,
    and [Domain] ends in neither.  For the content "example.com\r\n" the
    returned [Domain] is "example.com". *)
Theorem C5_domain_is_trimmed_stdin
    (validateOptions : Options -> option error) (CurrentVersion : string)
    (flags : Options) (bytes : string) :
  Version flags = false ->
  validateOptions (set_Stdin flags true) = None ->
  nonempty (Wordlist flags) = true ->
  nonempty (Domain flags) && nonempty (ResolversFile flags) = false ->
  exists o w',
    run validateOptions CurrentVersion flags true bytes = (Return o, w') /\
    In (EvCopyStdin Buffer bytes) (log w') /\
    stdin w' = EmptyString /\
    Domain o = strings.TrimRight bytes CRLF /\
    (exists tail,
       bytes = Domain o ++ tail /\ strings.all_in CRLF tail = true) /\
    strings.last_byte (Domain o) <> Some CR /\
    strings.last_byte (Domain o) <> Some LF /\
    (bytes = example_com_crlf -> Domain o = "example.com").
Proof.
  intros Hv He Hw Hdr.
  apply allGiven_without_domain_or_resolver in Hdr.
  do 2 eexists. split; [apply run_read; assumption|].
  simpl. split; [auto 10|]. split; [reflexivity|]. split; [reflexivity|].
  split; [apply TrimRight_split|].
  split; [apply CRLF_not_last|]. split; [apply CRLF_not_last|].
  intros ->. reflexivity.
Qed.

Lemma C5_domain_is_trimmed_stdin_witness :
  exists o w',
    run (Validate allReadable) someVersion
        wordlist_raw_flags true example_com_crlf =
      (Return o, w') /\
    In (EvCopyStdin Buffer example_com_crlf) (log w') /\
    stdin w' = EmptyString /\
    Domain o = strings.TrimRight example_com_crlf CRLF /\
    (exists tail,
       example_com_crlf = Domain o ++ tail /\
       strings.all_in CRLF tail = true) /\
    strings.last_byte (Domain o) <> Some CR /\
    strings.last_byte (Domain o) <> Some LF /\
    (example_com_crlf = example_com_crlf -> Domain o = "example.com").
Proof.
  apply (C5_domain_is_trimmed_stdin (Validate allReadable) someVersion
             wordlist_raw_flags example_com_crlf);
    reflexivity.
Defined.

(** ** C6: whitespace on stdin *)

(** C6 as stated fails: only carriage returns and line feeds are trimmed, so
    the content "  \n" gives the [Domain] "  ", a non-empty string of
    whitespace only. *)
Lemma C6_spaces_survive_trimming :
  fst (run (Validate allReadable) someVersion
           wordlist_raw_flags true spaces_lf) =
    Return (set_Domain (set_Stdin wordlist_raw_flags true) "  ") /\
  ~ (forall (flags : Options) (p : bool) (bytes : string)
            (o : Options) (w' : World),
       run (Validate allReadable) someVersion flags p bytes = (Return o, w') ->
       In (EvCopyStdin Buffer bytes) (log w') ->
       ~ (nonempty (Domain o) = true /\ all_space (Domain o) = true)).
Proof.
  split; [reflexivity|].
  intros H.
  apply (H wordlist_raw_flags true spaces_lf
           _ _ eq_refl).
  - simpl. auto 10.
  - split; reflexivity.
Qed.

(** C6, amended.  In a run that takes the domain from stdin, the returned
    [Domain] is empty exactly when the content of stdin consists of carriage
    returns and line feeds only, and it never ends in a carriage return or a
    line feed. *)
Theorem C6_only_line_terminators_trim_to_empty
    (validateOptions : Options -> option error) (CurrentVersion : string)
    (flags : Options) (bytes : string) :
  Version flags = false ->
  validateOptions (set_Stdin flags true) = None ->
  nonempty (Wordlist flags) = true ->
  nonempty (Domain flags) && nonempty (ResolversFile flags) = false ->
  exists o,
    fst (run validateOptions CurrentVersion flags true bytes) = Return o /\
    (strings.all_in CRLF bytes = true <-> Domain o = EmptyString) /\
    strings.last_byte (Domain o) <> Some CR /\
    strings.last_byte (Domain o) <> Some LF.
Proof.
  intros Hv He Hw Hdr.
  apply allGiven_without_domain_or_resolver in Hdr.
  rewrite run_read by assumption. simpl.
  eexists. split; [reflexivity|]. simpl.
  split; [|apply CRLF_not_last].
  split; [apply TrimRight_all_in | apply TrimRight_empty_inv].
Qed.

Lemma C6_only_line_terminators_trim_to_empty_witness :
  exists o,
    fst (run (Validate allReadable) someVersion wordlist_raw_flags true CRLF) =
      Return o /\
    (strings.all_in CRLF CRLF = true <-> Domain o = EmptyString) /\
    strings.last_byte (Domain o) <> Some CR /\
    strings.last_byte (Domain o) <> Some LF.
Proof.
  apply (C6_only_line_terminators_trim_to_empty (Validate allReadable)
           someVersion wordlist_raw_flags CRLF);
    reflexivity.
Defined.

(** ** C7: one probe, at most one read *)

(** C7.  In every run the stdin detector is called exactly once and stdin is
    read at most once: a drain and a domain read never occur in the same run,
    and the reconciliation step alone, from any record and any process state,
    adds at most one read to the log. *)
Theorem C7_single_probe_single_read
    (validateOptions : Options -> option error) (CurrentVersion : string)
    (flags : Options) (p : bool) (bytes : string) :
  count is_probe
    (log (snd (run validateOptions CurrentVersion flags p bytes))) = 1 /\
  count is_stdin_read
    (log (snd (run validateOptions CurrentVersion flags p bytes))) <= 1 /\
  count is_drain
    (log (snd (run validateOptions CurrentVersion flags p bytes))) +
  count is_domain_read
    (log (snd (run validateOptions CurrentVersion flags p bytes))) <= 1 /\
  (forall (o : Options) (w : World),
     exists added,
       log (snd (reconcileStdin o w)) = (log w ++ added)%list /\
       count is_stdin_read added <= 1).
Proof.
  split; [|split; [|split]].
  - destruct (run_kind validateOptions CurrentVersion flags p bytes)
      as [[Hv E] | [[e [Hv [He E]]] | [[Hv [He [Hp [Ha E]]]] |
          [[Hv [He [Hp [Ha [Hw E]]]]] | [Hv [He [Hs E]]]]]]];
      rewrite E; reflexivity.
  - destruct (run_kind validateOptions CurrentVersion flags p bytes)
      as [[Hv E] | [[e [Hv [He E]]] | [[Hv [He [Hp [Ha E]]]] |
          [[Hv [He [Hp [Ha [Hw E]]]]] | [Hv [He [Hs E]]]]]]];
      rewrite E; simpl; unfold count; simpl; lia.
  - destruct (run_kind validateOptions CurrentVersion flags p bytes)
      as [[Hv E] | [[e [Hv [He E]]] | [[Hv [He [Hp [Ha E]]]] |
          [[Hv [He [Hp [Ha [Hw E]]]]] | [Hv [He [Hs E]]]]]]];
      rewrite E; simpl; unfold count; simpl; lia.
  - intros o w.
    destruct (reconcileStdin_cases o) as [[Hs Ha] | [[Hs [Ha Hw]] | Hs]].
    + rewrite reconcileStdin_drain by assumption.
      exists [EvCopyStdin Discard (stdin w)]. split; [reflexivity|].
      unfold count; simpl; lia.
    + rewrite reconcileStdin_read by assumption.
      exists [EvCopyStdin Buffer (stdin w)]. split; [reflexivity|].
      unfold count; simpl; lia.
    + rewrite reconcileStdin_skip by assumption.
      exists []. split; [simpl; rewrite app_nil_r; reflexivity|].
      unfold count; simpl; lia.
Qed.

(** ** C8: the version flag *)

(** C8.  With the version flag set, the run logs the version message and
    exits with status 0; its effects are the probe, the logger set-up, the
    banner, the message and the exit, so the validator is not called and
    stdin is neither drained nor read: its bytes are all still pending. *)
Theorem C8_version_exits_before_resolution
    (validateOptions : Options -> option error) (CurrentVersion : string)
    (flags : Options) (p : bool) (bytes : string) :
  Version flags = true ->
  run validateOptions CurrentVersion flags p bytes =
    (Exited 0,
     mkWorld p bytes
       [EvHasStdin p; EvConfigureOutput (set_Stdin flags p); EvShowBanner;
        EvInfo "Current Version: %s\n" CurrentVersion; EvExit 0]) /\
  count is_validation
    (log (snd (run validateOptions CurrentVersion flags p bytes))) = 0 /\
  count is_stdin_read
    (log (snd (run validateOptions CurrentVersion flags p bytes))) = 0 /\
  stdin (snd (run validateOptions CurrentVersion flags p bytes)) = bytes.
Proof.
  intros Hv.
  rewrite (run_version validateOptions CurrentVersion flags p bytes Hv).
  repeat split.
Qed.

Lemma C8_version_exits_before_resolution_witness :
  run (Validate allReadable) someVersion version_flags true "pending" =
    (Exited 0,
     mkWorld true "pending"
       [EvHasStdin true; EvConfigureOutput (set_Stdin version_flags true);
        EvShowBanner; EvInfo "Current Version: %s\n" someVersion; EvExit 0]) /\
  count is_validation
    (log (snd (run (Validate allReadable) someVersion version_flags true
                   "pending"))) = 0 /\
  count is_stdin_read
    (log (snd (run (Validate allReadable) someVersion version_flags true
                   "pending"))) = 0 /\
  stdin (snd (run (Validate allReadable) someVersion version_flags true
                  "pending")) = "pending".
Proof.
  apply (C8_version_exits_before_resolution (Validate allReadable)
           someVersion version_flags true "pending").
  reflexivity.
Defined.

(** ** C9: determinism *)




(** ** C10: the frame of the reconciliation *)

(** C10.  The reconciliation step (lines 106-118) always returns, and the
    record it returns differs from the one it was given in [Domain] and
    [Stdin] at most; so does the record a run returns, compared with the
    record the flags were parsed into. *)
Theorem C10_reconciliation_frame
    (validateOptions : Options -> option error) (CurrentVersion : string)
    (options : Options) (w : World) :
  (exists o' w',
     reconcileStdin options w = (Return o', w') /\
     same_but_Domain_Stdin options o') /\
  match fst (ParseOptions validateOptions CurrentVersion options w) with
  | Return o' => same_but_Domain_Stdin options o'
  | Exited _ => True
  end.
Proof.
  split.
  - destruct (reconcileStdin_cases options) as [[Hs Ha] | [[Hs [Ha Hw]] | Hs]].
    + rewrite reconcileStdin_drain by assumption.
      do 2 eexists. split; [reflexivity|].
      unfold same_but_Domain_Stdin; simpl. repeat split.
    + rewrite reconcileStdin_read by assumption.
      do 2 eexists. split; [reflexivity|].
      unfold same_but_Domain_Stdin; simpl. repeat split.
    + rewrite reconcileStdin_skip by assumption.
      do 2 eexists. split; [reflexivity|].
      unfold same_but_Domain_Stdin. repeat split.
  - rewrite ParseOptions_from_start. simpl.
    destruct (run_kind validateOptions CurrentVersion options (piped w)
                (stdin w))
      as [[Hv E] | [[e [Hv [He E]]] | [[Hv [He [Hp [Ha E]]]] |
          [[Hv [He [Hp [Ha [Hw E]]]]] | [Hv [He [Hs E]]]]]]];
      rewrite E; simpl; try exact I;
      unfold same_but_Domain_Stdin; simpl; repeat split.
Qed.

(** * Further properties *)

(** ** Trimming, continued *)

Lemma TrimRight_fixed (cutset s : string) :
  (forall c, strings.last_byte s = Some c ->
             strings.contains cutset c = false) ->
  strings.TrimRight s cutset = s.
Proof.
  induction s as [|c rest IH]; [reflexivity|].
  intros Hlast. simpl.
  destruct rest as [|d rest'].
  - simpl. rewrite (Hlast c eq_refl). reflexivity.
  - rewrite IH; [reflexivity|].
    intros c' Hc'. apply Hlast. exact Hc'.
Qed.

Lemma TrimRight_fixed_inv (cutset s : string) (c : ascii) :
  strings.TrimRight s cutset = s ->
  strings.last_byte s = Some c ->
  strings.contains cutset c = false.
Proof.
  intros Hfix Hlast. rewrite <- Hfix in Hlast.
  apply (TrimRight_last cutset s c Hlast).
Qed.

Lemma TrimRight_app_cutset (cutset s tail : string) :
  strings.all_in cutset tail = true ->
  strings.TrimRight (s ++ tail) cutset = strings.TrimRight s cutset.
Proof.
  intros Hall. induction s as [|c rest IH]; simpl.
  - apply TrimRight_all_in. exact Hall.
  - rewrite IH. reflexivity.
Qed.

(** X1.  Carriage returns and line feeds at the end of stdin do not matter
    to a run: the content followed by any number of them gives the outcome
    the content alone gives.  And the returned [Domain] is stable: a run
    that returns a record returns the same record when that record's
    [Domain] is piped in instead. *)
Theorem X1_trailing_line_terminators_do_not_matter
    (validateOptions : Options -> option error) (CurrentVersion : string)
    (flags : Options) (p : bool) (bytes tail : string) :
  strings.all_in CRLF tail = true ->
  fst (run validateOptions CurrentVersion flags p (bytes ++ tail)) =
  fst (run validateOptions CurrentVersion flags p bytes) /\
  match fst (run validateOptions CurrentVersion flags p bytes) with
  | Return o =>
      fst (run validateOptions CurrentVersion flags p (Domain o)) = Return o
  | Exited _ => True
  end.
Proof.
  intros Hall. split.
  - rewrite !run_outcome. rewrite TrimRight_app_cutset by exact Hall.
    reflexivity.
  - rewrite run_outcome.
    destruct (Version flags) eqn:Hv; [exact I|].
    destruct (validateOptions (set_Stdin flags p)) eqn:He; [exact I|].
    rewrite run_outcome, Hv, He.
    destruct (p && allGiven flags) eqn:Ha; [reflexivity|].
    destruct (p && nonempty (Wordlist flags)) eqn:Hw; [|reflexivity].
    simpl. rewrite TrimRight_fixed; [reflexivity|].
    intros c Hc. apply (TrimRight_last CRLF bytes c Hc).
Qed.

Lemma X1_trailing_line_terminators_do_not_matter_witness :
  fst (run (Validate allReadable) someVersion wordlist_raw_flags true
           ("example.com" ++
            String LF (String CR (String LF EmptyString)))) =
  fst (run (Validate allReadable) someVersion wordlist_raw_flags true
           "example.com") /\
  match fst (run (Validate allReadable) someVersion wordlist_raw_flags true
                 "example.com") with
  | Return o =>
      fst (run (Validate allReadable) someVersion wordlist_raw_flags true
               (Domain o)) = Return o
  | Exited _ => True
  end.
Proof.
  apply (X1_trailing_line_terminators_do_not_matter (Validate allReadable)
           someVersion wordlist_raw_flags true "example.com"
           (String LF (String CR (String LF EmptyString)))).
  reflexivity.
Defined.

(** ** The domain read, continued *)

(** X2.  In a run that takes the domain from stdin, the returned [Domain] is
    the content of stdin byte for byte exactly when that content does not end
    in a carriage return or a line feed; line terminators inside the content
    are kept, so several piped lines make one [Domain]. *)
Theorem X2_domain_is_whole_stdin_iff_no_trailing_terminator
    (validateOptions : Options -> option error) (CurrentVersion : string)
    (flags : Options) (bytes : string) :
  Version flags = false ->
  validateOptions (set_Stdin flags true) = None ->
  nonempty (Wordlist flags) = true ->
  nonempty (Domain flags) && nonempty (ResolversFile flags) = false ->
  exists o,
    fst (run validateOptions CurrentVersion flags true bytes) = Return o /\
    (Domain o = bytes <->
     strings.last_byte bytes <> Some CR /\
     strings.last_byte bytes <> Some LF).
Proof.
  intros Hv He Hw Hdr.
  apply allGiven_without_domain_or_resolver in Hdr.
  rewrite run_read by assumption. simpl.
  eexists. split; [reflexivity|]. simpl. split.
  - intros Hfix.
    split; intros Hlast;
      apply (TrimRight_fixed_inv CRLF bytes _ Hfix) in Hlast;
      discriminate Hlast.
  - intros [Hcr Hlf]. apply TrimRight_fixed.
    intros c Hc. simpl.
    destruct (Ascii.eqb c CR) eqn:E1.
    + apply Ascii.eqb_eq in E1. subst c. contradiction.
    + destruct (Ascii.eqb c LF) eqn:E2; [|reflexivity].
      apply Ascii.eqb_eq in E2. subst c. contradiction.
Qed.

Lemma X2_domain_is_whole_stdin_iff_no_trailing_terminator_witness :
  exists o,
    fst (run (Validate allReadable) someVersion wordlist_raw_flags true
             ("a.com" ++ String LF "b.com")) = Return o /\
    (Domain o = "a.com" ++ String LF "b.com" <->
     strings.last_byte ("a.com" ++ String LF "b.com") <> Some CR /\
     strings.last_byte ("a.com" ++ String LF "b.com") <> Some LF).
Proof.
  apply (X2_domain_is_whole_stdin_iff_no_trailing_terminator
           (Validate allReadable) someVersion wordlist_raw_flags
           ("a.com" ++ String LF "b.com"));
    reflexivity.
Defined.

(** ** What a run does to stdin and to the process *)

(** X3.  A run that returns has consumed stdin exactly when stdin is
    available and the wordlist flag is set, whatever the other flags: stdin
    is then at end-of-stream after one copy.  Otherwise every byte is still
    pending, nothing was copied and the record is the flag record with the
    probe's result.  The returned [Stdin] is the probe's result unless all
    three of domain, resolver and wordlist are given; after a domain read it
    is still true although stdin is exhausted. *)
Theorem X3_stdin_consumed_iff_available_and_wordlist
    (validateOptions : Options -> option error) (CurrentVersion : string)
    (flags : Options) (p : bool) (bytes : string)
    (o : Options) (w' : World) :
  run validateOptions CurrentVersion flags p bytes = (Return o, w') ->
  Stdin o = p && negb (allGiven flags) /\
  if p && nonempty (Wordlist flags)
  then stdin w' = EmptyString /\ count is_stdin_read (log w') = 1
  else stdin w' = bytes /\ count is_stdin_read (log w') = 0 /\
       o = set_Stdin flags p.
Proof.
  intros Hrun.
  destruct (run_kind validateOptions CurrentVersion flags p bytes)
    as [[Hv E] | [[e [Hv [He E]]] | [[Hv [He [Hp [Ha E]]]] |
        [[Hv [He [Hp [Ha [Hw E]]]]] | [Hv [He [Hs E]]]]]]];
    rewrite E in Hrun; try discriminate Hrun;
    injection Hrun as <- <-; simpl.
  - subst p. rewrite Ha. simpl.
    unfold allGiven in Ha. apply andb_prop in Ha. destruct Ha as [_ Hw].
    rewrite Hw. repeat split.
  - subst p. rewrite Ha, Hw. repeat split.
  - rewrite Hs. split; [|repeat split].
    destruct p; [|reflexivity]. simpl in Hs.
    unfold allGiven. rewrite Hs, andb_false_r. reflexivity.
Qed.

Lemma X3_stdin_consumed_iff_available_and_wordlist_witness :
  exists o w',
    run (Validate allReadable) someVersion wordlist_raw_flags true
        example_com_crlf = (Return o, w') /\
    Stdin o = true /\
    stdin w' = EmptyString /\
    count is_stdin_read (log w') = 1.
Proof.
  do 2 eexists. split; [cbv; reflexivity|].
  apply (X3_stdin_consumed_iff_available_and_wordlist
           (Validate allReadable) someVersion wordlist_raw_flags true
           example_com_crlf _ _ eq_refl).
Defined.

(** X4.  Once the flags are parsed (line 84 has returned), the rest of
    [ParseOptions] ends the process at two places only: with status 0 at
    line 97, exactly when the version flag is set, and with status 1 at line
    103, exactly when it is not set and the validator returns an error.
    Both exits come before any read of stdin, and the exit is the last
    effect.  Exits of the flag parser itself are not part of this. *)
Theorem X4_exit_status_after_parsing
    (validateOptions : Options -> option error) (CurrentVersion : string)
    (flags : Options) (p : bool) (bytes : string) :
  (fst (run validateOptions CurrentVersion flags p bytes) = Exited 0 <->
   Version flags = true) /\
  (fst (run validateOptions CurrentVersion flags p bytes) = Exited 1 <->
   Version flags = false /\ validateOptions (set_Stdin flags p) <> None) /\
  (forall c,
     fst (run validateOptions CurrentVersion flags p bytes) = Exited c ->
     (c = 0 \/ c = 1)%Z /\
     stdin (snd (run validateOptions CurrentVersion flags p bytes)) = bytes /\
     count is_stdin_read
       (log (snd (run validateOptions CurrentVersion flags p bytes))) = 0 /\
     exists before,
       log (snd (run validateOptions CurrentVersion flags p bytes)) =
         (before ++ [EvExit c])%list).
Proof.
  destruct (run_kind validateOptions CurrentVersion flags p bytes)
    as [[Hv E] | [[e [Hv [He E]]] | [[Hv [He [Hp [Ha E]]]] |
        [[Hv [He [Hp [Ha [Hw E]]]]] | [Hv [He [Hs E]]]]]]];
    rewrite E; simpl.
  - split; [split; auto|]. split.
    + split; [discriminate | intros [H _]; congruence].
    + intros c Hc. injection Hc as <-. repeat split; auto.
      eexists (_ :: _ :: _ :: _ :: nil). reflexivity.
  - split; [split; [discriminate | congruence]|]. split.
    + split; [|reflexivity]. intros _. split; [exact Hv | congruence].
    + intros c Hc. injection Hc as <-. repeat split; auto.
      eexists (_ :: _ :: _ :: _ :: _ :: nil). reflexivity.
  - split; [split; [discriminate | congruence]|]. split.
    + split; [discriminate | intros [_ H]; congruence].
    + discriminate.
  - split; [split; [discriminate | congruence]|]. split.
    + split; [discriminate | intros [_ H]; congruence].
    + discriminate.
  - split; [split; [discriminate | congruence]|]. split.
    + split; [discriminate | intros [_ H]; congruence].
    + discriminate.
Qed.

(** X5.  The content of stdin reaches the returned record only through the
    domain read, and only up to trailing carriage returns and line feeds: two
    runs with the same flags and probe return the same record (or exit alike)
    when all three flags are given, or stdin is not available, or the
    wordlist flag is not set, or the two contents trim to the same string. *)
Theorem X5_record_depends_on_trimmed_stdin_only
    (validateOptions : Options -> option error) (CurrentVersion : string)
    (flags : Options) (p : bool) (bytes1 bytes2 : string) :
  allGiven flags = true \/
  p && nonempty (Wordlist flags) = false \/
  strings.TrimRight bytes1 CRLF = strings.TrimRight bytes2 CRLF ->
  fst (run validateOptions CurrentVersion flags p bytes1) =
  fst (run validateOptions CurrentVersion flags p bytes2).
Proof.
  intros Hcase.
  destruct (run_kind validateOptions CurrentVersion flags p bytes1)
    as [[Hv E] | [[e [Hv [He E]]] | [[Hv [He [Hp [Ha E]]]] |
        [[Hv [He [Hp [Ha [Hw E]]]]] | [Hv [He [Hs E]]]]]]];
    rewrite E; simpl.
  - rewrite run_version by exact Hv. reflexivity.
  - rewrite (run_invalid _ _ _ _ _ e) by assumption. reflexivity.
  - subst p. rewrite run_drain by assumption. reflexivity.
  - subst p. rewrite run_read by assumption. simpl.
    destruct Hcase as [H | [H | H]].
    + congruence.
    + simpl in H. congruence.
    + rewrite H. reflexivity.
  - rewrite run_skip by assumption. reflexivity.
Qed.

Lemma X5_record_depends_on_trimmed_stdin_only_witness :
  fst (run (Validate allReadable) someVersion wordlist_raw_flags true
           example_com_crlf) =
  fst (run (Validate allReadable) someVersion wordlist_raw_flags true
           "example.com").
Proof.
  apply (X5_record_depends_on_trimmed_stdin_only (Validate allReadable)
           someVersion wordlist_raw_flags true example_com_crlf
           "example.com").
  right. right. reflexivity.
Defined.

(** ** createGroup *)

Lemma updateAt_valid (f : FlagData -> FlagData) (l : list FlagData) (p : nat) :
  p < length l ->
  exists l',
    updateAt p f l = Some l' /\
    length l' = length l /\
    forall q,
      nth_error l' q =
      if Nat.eqb q p then option_map f (nth_error l q) else nth_error l q.
Proof.
  revert p. induction l as [|d rest IH]; intros p Hp; simpl in Hp; [lia|].
  destruct p as [|p'].
  - exists (f d :: rest). split; [reflexivity|]. split; [reflexivity|].
    intros [|q]; reflexivity.
  - destruct (IH p') as [rest' [Hu [Hlen Hnth]]]; [lia|].
    exists (d :: rest'). simpl. rewrite Hu.
    split; [reflexivity|]. split; [simpl; congruence|].
    intros [|q]; [reflexivity|]. simpl. apply Hnth.
Qed.

(** The loop of [createGroup], on valid pointers. *)
Lemma forEachFlag_Group (g : string) (flags : list nat)
      (fs : FlagSet) (o : Options) :
  Forall (fun p => p < length (flagStore fs)) flags ->
  exists store',
    forEachFlag flags (fun currentFlag => Group currentFlag g) (fs, o) =
      Some (tt,
            (mkFlagSet (description fs) (CommandLine fs) (flagKeys fs)
                       store' (groups fs),
             o)) /\
    length store' = length (flagStore fs) /\
    forall q,
      nth_error store' q =
      if existsb (Nat.eqb q) flags
      then option_map (regroup g) (nth_error (flagStore fs) q)
      else nth_error (flagStore fs) q.
Proof.
  revert fs. induction flags as [|p rest IH]; intros fs Hvalid.
  - exists (flagStore fs). simpl. unfold retB.
    destruct fs; simpl. repeat split.
  - inversion Hvalid as [|? ? Hp Hrest]; subst.
    destruct (updateAt_valid (regroup g) (flagStore fs) p Hp)
      as [store1 [Hu [Hlen1 Hnth1]]].
    set (fs1 := mkFlagSet (description fs) (CommandLine fs) (flagKeys fs)
                          store1 (groups fs)).
    destruct (IH fs1) as [store' [Hrun [Hlen Hnth]]].
    { simpl. rewrite Hlen1. exact Hrest. }
    assert (HG : Group p g (fs, o) = Some (tt, (fs1, o)))
      by (unfold Group; rewrite Hu; reflexivity).
    exists store'. simpl. unfold bindB. rewrite HG, Hrun.
    unfold fs1 in *. simpl in *.
    split; [reflexivity|]. split; [congruence|].
    intros q. rewrite Hnth, Hnth1.
    destruct (Nat.eqb q p) eqn:Eq; simpl.
    + destruct (existsb (Nat.eqb q) rest); [|reflexivity].
      destruct (nth_error (flagStore fs) q); reflexivity.
    + reflexivity.
Qed.

(** X6.  [createGroup], given pointers to flags of the flag set, adds the
    group after the groups already there and writes its name into exactly
    the flags it was given: each of them keeps its names, usage and default
    and has the new group; every other flag, the registered names, the
    description of the flag set and the record of options are unchanged. *)
Theorem X6_createGroup_groups_exactly_its_flags
    (groupName descr : string) (flags : list nat)
    (fs : FlagSet) (o : Options) :
  Forall (fun p => p < length (flagStore fs)) flags ->
  exists store',
    createGroup groupName descr flags (fs, o) =
      Some (tt,
            (mkFlagSet (description fs) (CommandLine fs) (flagKeys fs)
                       store' (groups fs ++ [(groupName, descr)]),
             o)) /\
    length store' = length (flagStore fs) /\
    forall q,
      nth_error store' q =
      if existsb (Nat.eqb q) flags
      then option_map (regroup groupName) (nth_error (flagStore fs) q)
      else nth_error (flagStore fs) q.
Proof.
  intros Hvalid.
  set (fs1 := mkFlagSet (description fs) (CommandLine fs) (flagKeys fs)
                        (flagStore fs) (groups fs ++ [(groupName, descr)])).
  destruct (forEachFlag_Group groupName flags fs1 o Hvalid)
    as [store' [Hrun [Hlen Hnth]]].
  assert (HS : SetGroup groupName descr (fs, o) = Some (tt, (fs1, o)))
    by reflexivity.
  exists store'. unfold createGroup, bindB. rewrite HS, Hrun.
  unfold fs1 in *. simpl in *. repeat split; assumption.
Qed.

Lemma X6_createGroup_groups_exactly_its_flags_witness :
  exists store',
    createGroup "input" "Input" [1]
      (mkFlagSet EmptyString [] []
         [mkFlagData "u0" "a" "alpha" (VBool false) "old";
          mkFlagData "u1" "b" "beta" (VInt 3) "old"]
         [("old", "Old")],
       zeroOptions) =
      Some (tt,
            (mkFlagSet EmptyString [] [] store'
                       ([("old", "Old")] ++ [("input", "Input")]),
             zeroOptions)) /\
    length store' = 2 /\
    forall q,
      nth_error store' q =
      if existsb (Nat.eqb q) [1]
      then option_map (regroup "input")
             (nth_error [mkFlagData "u0" "a" "alpha" (VBool false) "old";
                         mkFlagData "u1" "b" "beta" (VInt 3) "old"] q)
      else nth_error [mkFlagData "u0" "a" "alpha" (VBool false) "old";
                      mkFlagData "u1" "b" "beta" (VInt 3) "old"] q.
Proof.
  apply (X6_createGroup_groups_exactly_its_flags "input" "Input" [1]
           (mkFlagSet EmptyString [] []
              [mkFlagData "u0" "a" "alpha" (VBool false) "old";
               mkFlagData "u1" "b" "beta" (VInt 3) "old"]
              [("old", "Old")])
           zeroOptions).
  repeat constructor.
Defined.

(** X7.  Two calls of [createGroup] in a row register both groups, in call
    order and without merging equal names; a flag given to both calls ends in
    the group of the second, a flag given to the first only stays in the
    group of the first. *)
Theorem X7_createGroup_twice_last_wins
    (g1 d1 g2 d2 : string) (flags1 flags2 : list nat)
    (fs : FlagSet) (o : Options) :
  Forall (fun p => p < length (flagStore fs)) flags1 ->
  Forall (fun p => p < length (flagStore fs)) flags2 ->
  exists store',
    (createGroup g1 d1 flags1 ;; createGroup g2 d2 flags2)%flag (fs, o) =
      Some (tt,
            (mkFlagSet (description fs) (CommandLine fs) (flagKeys fs)
                       store' (groups fs ++ [(g1, d1); (g2, d2)]),
             o)) /\
    forall q,
      nth_error store' q =
      if existsb (Nat.eqb q) flags2
      then option_map (regroup g2) (nth_error (flagStore fs) q)
      else if existsb (Nat.eqb q) flags1
           then option_map (regroup g1) (nth_error (flagStore fs) q)
           else nth_error (flagStore fs) q.
Proof.
  intros H1 H2.
  destruct (X6_createGroup_groups_exactly_its_flags g1 d1 flags1 fs o H1)
    as [store1 [Hrun1 [Hlen1 Hnth1]]].
  set (fs1 := mkFlagSet (description fs) (CommandLine fs) (flagKeys fs)
                        store1 (groups fs ++ [(g1, d1)])) in *.
  destruct (X6_createGroup_groups_exactly_its_flags g2 d2 flags2 fs1 o)
    as [store2 [Hrun2 [Hlen2 Hnth2]]].
  { simpl. rewrite Hlen1. exact H2. }
  exists store2. unfold bindB at 1. rewrite Hrun1. fold fs1. rewrite Hrun2.
  unfold fs1 in *. simpl in *.
  rewrite <- app_assoc. split; [reflexivity|].
  intros q. rewrite Hnth2, Hnth1.
  destruct (existsb (Nat.eqb q) flags2); [|reflexivity].
  destruct (existsb (Nat.eqb q) flags1); [|reflexivity].
  destruct (nth_error (flagStore fs) q); reflexivity.
Qed.

Lemma X7_createGroup_twice_last_wins_witness :
  exists store',
    (createGroup "input" "Input" [0; 1] ;;
     createGroup "debug" "Debug" [1])%flag
      (mkFlagSet EmptyString [] []
         [mkFlagData "u0" "a" "alpha" (VBool false) EmptyString;
          mkFlagData "u1" "b" "beta" (VInt 3) EmptyString]
         [],
       zeroOptions) =
      Some (tt,
            (mkFlagSet EmptyString [] [] store'
                       [("input", "Input"); ("debug", "Debug")],
             zeroOptions)) /\
    map group store' = ["input"; "debug"].
Proof.
  destruct (X7_createGroup_twice_last_wins
              "input" "Input" "debug" "Debug" [0; 1] [1]
              (mkFlagSet EmptyString [] []
                 [mkFlagData "u0" "a" "alpha" (VBool false) EmptyString;
                  mkFlagData "u1" "b" "beta" (VInt 3) EmptyString]
                 [])
              zeroOptions)
    as [store' [Hrun _]].
  - repeat constructor.
  - repeat constructor.
  - exists store'. split; [exact Hrun|].
    injection Hrun as <-. reflexivity.
Defined.

(** ** The declarations of ParseOptions *)

(** X8.  The declarations of lines 44-82 never panic on a fresh flag set (no
    name is declared twice), and they leave every option at its declared
    default whatever the record held before: 10000 threads, 5 retries, 25
    wildcard threads, everything else empty or false.  [Stdin] alone keeps
    its value: no declaration writes it. *)
Theorem X8_declarations_set_the_defaults (o : Options) :
  exists fs,
    declareFlags (NewFlagSet, o) =
    Some (tt, (fs, set_Stdin defaultOptions (Stdin o))).
Proof.
  eexists. vm_compute. reflexivity.
Qed.

Ltac flag_entry :=
  let Hd := fresh "Hd" in
  let Hs := fresh "Hs" in
  simpl; intros Hd; injection Hd as <-;
  split; [reflexivity|];
  split; [vm_compute; discriminate|];
  split; [vm_compute; auto 10|];
  intros Hs; try (exfalso; apply Hs; reflexivity);
  split; reflexivity.

(** X9.  In the flag set that the declarations build, the names registered
    on the command line are pairwise distinct and none of them sets [Stdin];
    every flag is found in the table of descriptions under its long name, has
    a variable behind that name, and is filed in a group that the flag set
    knows; and a short name leads to the same description and sets the same
    variable as its long name. *)
Theorem X9_declared_names_and_groups
    (o : Options) (fs : FlagSet) (o' : Options) :
  declareFlags (NewFlagSet, o) = Some (tt, (fs, o')) ->
  NoDup (map fst (CommandLine fs)) /\
  (forall name ptr,
     In (name, ptr) (CommandLine fs) -> ptr <> BoolPtr FStdin) /\
  (forall p d,
     nth_error (flagStore fs) p = Some d ->
     lookupKey (long d) (flagKeys fs) = Some p /\
     lookupName (long d) (CommandLine fs) <> None /\
     In (group d) (groupNames fs) /\
     (short d <> EmptyString ->
      lookupKey (short d) (flagKeys fs) = Some p /\
      lookupName (short d) (CommandLine fs) =
        lookupName (long d) (CommandLine fs))).
Proof.
  intros H. vm_compute in H. injection H as <- _.
  split; [|split].
  - match goal with
    | |- NoDup ?l =>
        assert (E : nodup string_dec l = l) by (vm_compute; reflexivity);
        rewrite <- E; apply NoDup_nodup
    end.
  - simpl. intros name ptr Hin.
    repeat (destruct Hin as [Hin|Hin];
            [injection Hin as <- <-; discriminate|]).
    contradiction.
  - intros p d.
    do 19 (destruct p as [|p]; [flag_entry|]).
    simpl. destruct p; discriminate.
Qed.

Lemma X9_declared_names_and_groups_witness :
  declareFlags (NewFlagSet, zeroOptions) =
    Some (tt, (declaredFlagSet, defaultOptions)) /\
  NoDup (map fst (CommandLine declaredFlagSet)) /\
  lookupKey "d" (flagKeys declaredFlagSet) =
    lookupKey "domain" (flagKeys declaredFlagSet).
Proof.
  assert (H : declareFlags (NewFlagSet, zeroOptions) =
              Some (tt, (declaredFlagSet, defaultOptions)))
    by (vm_compute; reflexivity).
  split; [exact H|].
  split; [|reflexivity].
  apply (X9_declared_names_and_groups zeroOptions declaredFlagSet
           defaultOptions H).
Defined.
